(** * ContextAnnotationApp: the two utility scripts under [src/utils]

    A shallow embedding of [events-importer.py] and [signal-fetcher.py].

    - Python values are an inductive type [value]; dictionaries are finite
      maps with string keys, floats are IEEE-754 values ([spec_float]).
    - Exceptions are an error monad [result]; [print], the remote calls and
      [savefig] are recorded in explicit logs that are threaded through the
      code.
    - What the scripts import from libraries (the JSON decoder, the data
      frame constructor, the remote database client, the chart renderer)
      is a parameter of the functions that use it.  Module [json] gives a
      reference decoder and module [pd] a reference constructor, which are
      used to run the functions on concrete inputs. *)

From Stdlib Require Import ZArith String Ascii List Bool Lia.
From Stdlib Require Import Floats.SpecFloat.
From stdpp Require Import base option strings gmap list.
Import ListNotations.
Local Open Scope string_scope.

(* ================================================================= *)
(** ** Python: exceptions, values, truth value testing *)

Module Py.

(** The exception classes that the two scripts can meet. *)
Inductive exn_class : Type :=
| JSONDecodeError
| TypeError
| AttributeError
| KeyError
| RecursionError
| OverflowError
| APIError.

(** An exception object: its class and the text of [str(e)]. *)
Record exn : Type := Exn { exn_type : exn_class; exn_str : string }.

(** A computation either returns a value or raises. *)
Inductive result (A : Type) : Type :=
| Ok (a : A)
| Raise (e : exn).
Arguments Ok {A} a.
Arguments Raise {A} e.

Definition bind {A B : Type} (c : result A) (k : A -> result B) : result B :=
  match c with
  | Ok a => k a
  | Raise e => Raise e
  end.

Definition raises {A : Type} (c : result A) : Prop :=
  match c with
  | Ok _ => False
  | Raise _ => True
  end.

Definition returns {A : Type} (c : result A) : Prop :=
  match c with
  | Ok _ => True
  | Raise _ => False
  end.

(** Values that travel through the signal fetcher: what the remote client
    hands back for a row, and what [json.loads] builds. *)
#[warnings="-register-all"]
Inductive value : Type :=
| VNone
| VBool (b : bool)
| VInt (n : Z)
| VFloat (f : spec_float)
| VStr (s : string)
| VList (l : list value)
| VDict (d : gmap string value).

(** [type(v).__name__] *)
Definition type_name (v : value) : string :=
  match v with
  | VNone => "NoneType"
  | VBool _ => "bool"
  | VInt _ => "int"
  | VFloat _ => "float"
  | VStr _ => "str"
  | VList _ => "list"
  | VDict _ => "dict"
  end.

Definition float_is_zero (f : spec_float) : bool :=
  match f with
  | S754_zero _ => true
  | _ => false
  end.

Definition string_is_empty (s : string) : bool :=
  match s with
  | EmptyString => true
  | String _ _ => false
  end.

Definition list_is_empty {A : Type} (l : list A) : bool :=
  match l with
  | [] => true
  | _ :: _ => false
  end.

(** Truth value testing, as done by [if v:] and [not v]. *)
Definition truthy (v : value) : bool :=
  match v with
  | VNone => false
  | VBool b => b
  | VInt n => negb (n =? 0)%Z
  | VFloat f => negb (float_is_zero f)
  | VStr s => negb (string_is_empty s)
  | VList l => negb (list_is_empty l)
  | VDict d => negb (bool_decide (dom d = (∅ : gset string)))
  end.

(** [isinstance(v, dict)] *)
Definition is_dict (v : value) : bool :=
  match v with
  | VDict _ => true
  | _ => false
  end.

(** [d.get(key)] on a dictionary: [None] when the key is absent. *)
Definition dict_get (d : gmap string value) (key : string) : value :=
  default VNone (d !! key).

(** [d.get(key, dflt)] on a dictionary. *)
Definition dict_get_default (d : gmap string value) (key : string) (dflt : value) : value :=
  default dflt (d !! key).

(** [v.get(key, dflt)] on any value: only a dictionary has the method. *)
Definition get_default (v : value) (key : string) (dflt : value) : result value :=
  match v with
  | VDict d => Ok (dict_get_default d key dflt)
  | _ => Raise (Exn AttributeError
                 ("'" ++ type_name v ++ "' object has no attribute 'get'"))
  end.

End Py.

Export Py.

(** [result] is a monad: [x ← c; k] runs [c] and, unless it raised, [k]. *)
#[global] Instance result_ret : MRet result := @Ok.
#[global] Instance result_bind : MBind result :=
  fun A B (k : A -> result B) (c : result A) => Py.bind c k.

(* ================================================================= *)
(** ** The [json] module of the Python library

    [json.loads] is library code.  The functions of the signal fetcher take
    the string decoder as a parameter [decode]; [json.loads decode] adds the
    argument check that [json.loads] does before it decodes.

    [json.decode] is a reference decoder for that parameter: the JSON
    grammar as [json.decoder] scans it (with the constants [NaN],
    [Infinity] and [-Infinity] that Python accepts).  A string is a byte
    string in UTF-8.  An error has the class [JSONDecodeError] and keeps the
    message of the failing check, without the position that Python appends
    to it. *)

Module json.
Local Open Scope nat_scope.

(** [json.loads(s)]: anything but a string is refused before decoding. *)
Definition loads (decode : string -> result value) (s : value) : result value :=
  match s with
  | VStr str => decode str
  | _ => Raise (Exn TypeError
                 ("the JSON object must be str, bytes or bytearray, not "
                    ++ type_name s))
  end.

Definition decode_error {A : Type} (msg : string) : result A :=
  Raise (Exn JSONDecodeError msg).

Definition is_whitespace (c : ascii) : bool :=
  let n := nat_of_ascii c in
  (n =? 32) || (n =? 9) || (n =? 10) || (n =? 13).

Fixpoint skip_whitespace (s : string) : string :=
  match s with
  | String c r => if is_whitespace c then skip_whitespace r else s
  | EmptyString => s
  end.

(** [strip_prefix p s] is what follows [p] in [s], when [s] starts with [p]. *)
Fixpoint strip_prefix (p s : string) : option string :=
  match p, s with
  | EmptyString, _ => Some s
  | String a p', String b s' => if Ascii.eqb a b then strip_prefix p' s' else None
  | String _ _, EmptyString => None
  end.

Definition digit_value (c : ascii) : option Z :=
  let n := nat_of_ascii c in
  if (48 <=? n) && (n <=? 57) then Some (Z.of_nat (n - 48)) else None.

Definition hex_value (c : ascii) : option Z :=
  let n := nat_of_ascii c in
  if (48 <=? n) && (n <=? 57) then Some (Z.of_nat (n - 48))
  else if (97 <=? n) && (n <=? 102) then Some (Z.of_nat (n - 87))
  else if (65 <=? n) && (n <=? 70) then Some (Z.of_nat (n - 55))
  else None.

Definition hex4 (a b c d : ascii) : option Z :=
  match hex_value a, hex_value b, hex_value c, hex_value d with
  | Some x, Some y, Some z, Some w => Some (((x * 16 + y) * 16 + z) * 16 + w)%Z
  | _, _, _, _ => None
  end.

Definition byte (n : Z) : ascii := ascii_of_N (Z.to_N n).

(** The UTF-8 bytes of a code point (a lone surrogate is kept, in three
    bytes). *)
Definition utf8 (u : Z) : string :=
  if (u <? 128)%Z then String (byte u) EmptyString
  else if (u <? 2048)%Z then
    String (byte (192 + u / 64)) (String (byte (128 + u mod 64)) EmptyString)
  else if (u <? 65536)%Z then
    String (byte (224 + u / 4096))
      (String (byte (128 + (u / 64) mod 64)) (String (byte (128 + u mod 64)) EmptyString))
  else
    String (byte (240 + u / 262144))
      (String (byte (128 + (u / 4096) mod 64))
         (String (byte (128 + (u / 64) mod 64)) (String (byte (128 + u mod 64)) EmptyString))).

Definition simple_escape (c : ascii) : option ascii :=
  let n := nat_of_ascii c in
  if n =? 34 then Some c                          (* quotation mark *)
  else if n =? 92 then Some c                     (* reverse solidus *)
  else if n =? 47 then Some c                     (* solidus *)
  else if n =? 98 then Some (ascii_of_nat 8)      (* backspace *)
  else if n =? 102 then Some (ascii_of_nat 12)    (* form feed *)
  else if n =? 110 then Some (ascii_of_nat 10)    (* line feed *)
  else if n =? 114 then Some (ascii_of_nat 13)    (* carriage return *)
  else if n =? 116 then Some (ascii_of_nat 9)     (* tab *)
  else None.

Definition is_high_surrogate (u : Z) : bool := (55296 <=? u)%Z && (u <=? 56319)%Z.
Definition is_low_surrogate (u : Z) : bool := (56320 <=? u)%Z && (u <=? 57343)%Z.

(** The low half of a surrogate pair, when the six characters [b u a1 a2 a3
    a4] are the escape of one. *)
Definition low_surrogate (b u a1 a2 a3 a4 : ascii) : option Z :=
  if (nat_of_ascii b =? 92) && (nat_of_ascii u =? 117) then
    match hex4 a1 a2 a3 a4 with
    | Some lo => if is_low_surrogate lo then Some lo else None
    | None => None
    end
  else None.

Definition prepend (p : string) (c : result (string * string)) : result (string * string) :=
  match c with
  | Ok (str, rest) => Ok (p ++ str, rest)
  | Raise err => Raise err
  end.

(** [scanstring]: the text up to the closing quote, escapes resolved, and
    what follows the quote.  The opening quote has been read. *)
Fixpoint scanstring (s : string) : result (string * string) :=
  match s with
  | EmptyString => decode_error "Unterminated string starting at"
  | String c r =>
      if nat_of_ascii c =? 34 then Ok (EmptyString, r)
      else if nat_of_ascii c =? 92 then
        match r with
        | EmptyString => decode_error "Unterminated string starting at"
        | String e r1 =>
            if nat_of_ascii e =? 117 then
              match r1 with
              | String h1 (String h2 (String h3 (String h4 r2))) =>
                  match hex4 h1 h2 h3 h4 with
                  | None => decode_error "Invalid \uXXXX escape"
                  | Some uni =>
                      match r2 with
                      | String b (String u (String a1 (String a2
                          (String a3 (String a4 r3))))) =>
                          match (if is_high_surrogate uni
                                 then low_surrogate b u a1 a2 a3 a4
                                 else None) with
                          | Some lo =>
                              prepend
                                (utf8 (65536 + (uni - 55296) * 1024 + (lo - 56320))%Z)
                                (scanstring r3)
                          | None => prepend (utf8 uni) (scanstring r2)
                          end
                      | _ => prepend (utf8 uni) (scanstring r2)
                      end
                  end
              | _ => decode_error "Invalid \uXXXX escape"
              end
            else
              match simple_escape e with
              | Some ch => prepend (String ch EmptyString) (scanstring r1)
              | None => decode_error "Invalid \escape"
              end
        end
      else if nat_of_ascii c <? 32 then
        decode_error "Invalid control character at"
      else prepend (String c EmptyString) (scanstring r)
  end.

(** The value of [(-1)^neg * m * 10^e] as a double, rounded to nearest
    even ([float] applied to the text of a JSON number).  A negative
    exponent divides with enough extra bits, the last one sticky. *)
Definition float_of_decimal (neg : bool) (m e : Z) : spec_float :=
  if (m =? 0)%Z then S754_zero neg
  else
    let r :=
      if (0 <=? e)%Z then binary_normalize 53 1024 (m * 10 ^ e)%Z 0%Z false
      else
        let d := (10 ^ (- e))%Z in
        let s := Z.max 0 (64 + Z.log2 d - Z.log2 m)%Z in
        let n := (m * 2 ^ s)%Z in
        let sticky := if (n mod d =? 0)%Z then 0%Z else 1%Z in
        binary_normalize 53 1024 (2 * (n / d) + sticky)%Z (- s - 1)%Z false in
    if neg then SFopp r else r.

(** The digits at the head of [s]: their value appended to [acc], their
    number added to [n], and what follows them. *)
Fixpoint scan_digits (s : string) (acc : Z) (n : nat) : Z * nat * string :=
  match s with
  | String c r =>
      match digit_value c with
      | Some d => scan_digits r (acc * 10 + d)%Z (S n)
      | None => (acc, n, s)
      end
  | EmptyString => (acc, n, s)
  end.

(** The integer part of a number: an optional minus sign, then [0] or a
    digit from 1 to 9 and more digits. *)
Definition match_integer (s : string) : option (bool * Z * string) :=
  let '(neg, s1) :=
    match s with
    | String c r => if nat_of_ascii c =? 45 then (true, r) else (false, s)
    | EmptyString => (false, s)
    end in
  match s1 with
  | String c r =>
      match digit_value c with
      | Some d =>
          if (d =? 0)%Z then Some (neg, 0%Z, r)
          else let '(v, _, rest) := scan_digits r d 1 in Some (neg, v, rest)
      | None => None
      end
  | EmptyString => None
  end.

(** The exponent of a number, when [s] starts with one. *)
Definition match_exponent (s : string) : option (Z * string) :=
  match s with
  | String c r =>
      if (nat_of_ascii c =? 101) || (nat_of_ascii c =? 69) then
        let '(minus, r1) :=
          match r with
          | String sg r' =>
              if nat_of_ascii sg =? 45 then (true, r')
              else if nat_of_ascii sg =? 43 then (false, r')
              else (false, r)
          | EmptyString => (false, r)
          end in
        let '(v, n, rest) := scan_digits r1 0%Z 0 in
        if n =? 0 then None else Some (if minus then (- v)%Z else v, rest)
      else None
  | EmptyString => None
  end.

(** A number at the head of [s]: an [int] when it has neither fraction nor
    exponent, a [float] otherwise. *)
Definition match_number (s : string) : option (value * string) :=
  match match_integer s with
  | None => None
  | Some (neg, i, s1) =>
      let '(m, nfrac, s2) :=
        match s1 with
        | String c r =>
            if nat_of_ascii c =? 46 then
              let '(v, n, rest) := scan_digits r i 0 in
              if n =? 0 then (i, 0, s1) else (v, n, rest)
            else (i, 0, s1)
        | EmptyString => (i, 0, s1)
        end in
      match match_exponent s2 with
      | Some (ex, s3) =>
          Some (VFloat (float_of_decimal neg m (ex - Z.of_nat nfrac)), s3)
      | None =>
          if nfrac =? 0 then Some (VInt (if neg then (- i)%Z else i), s2)
          else Some (VFloat (float_of_decimal neg m (- Z.of_nat nfrac)), s2)
      end
  end.

(** What is not a string, an object or an array. *)
Definition scan_constant (s : string) : result (value * string) :=
  match strip_prefix "null" s with
  | Some r => Ok (VNone, r)
  | None =>
  match strip_prefix "true" s with
  | Some r => Ok (VBool true, r)
  | None =>
  match strip_prefix "false" s with
  | Some r => Ok (VBool false, r)
  | None =>
  match match_number s with
  | Some res => Ok res
  | None =>
  match strip_prefix "NaN" s with
  | Some r => Ok (VFloat S754_nan, r)
  | None =>
  match strip_prefix "Infinity" s with
  | Some r => Ok (VFloat (S754_infinity false), r)
  | None =>
  match strip_prefix "-Infinity" s with
  | Some r => Ok (VFloat (S754_infinity true), r)
  | None => decode_error "Expecting value"
  end end end end end end end.

(** [scan_once] reads one value at the head of [s]; [JSONObject] reads the
    pairs of an object from the quote that opens a key, [JSONArray] the
    items of an array.  The recursion is on [fuel]: one unit per nested
    call, and each call reads at least one character. *)
Fixpoint scan_once (fuel : nat) (s : string) : result (value * string) :=
  match fuel with
  | O => Raise (Exn RecursionError "maximum recursion depth exceeded")
  | S fuel' =>
      match s with
      | String c r =>
          if nat_of_ascii c =? 34 then
            match scanstring r with
            | Ok (str, rest) => Ok (VStr str, rest)
            | Raise err => Raise err
            end
          else if nat_of_ascii c =? 123 then
            match skip_whitespace r with
            | String c1 r1 =>
                if nat_of_ascii c1 =? 125 then Ok (VDict ∅, r1)
                else if nat_of_ascii c1 =? 34 then JSONObject fuel' r1 ∅
                else decode_error "Expecting property name enclosed in double quotes"
            | EmptyString =>
                decode_error "Expecting property name enclosed in double quotes"
            end
          else if nat_of_ascii c =? 91 then
            match skip_whitespace r with
            | String c1 r1 =>
                if nat_of_ascii c1 =? 93 then Ok (VList [], r1)
                else JSONArray fuel' (String c1 r1) []
            | EmptyString => decode_error "Expecting value"
            end
          else scan_constant s
      | EmptyString => decode_error "Expecting value"
      end
  end
with JSONObject (fuel : nat) (s : string) (pairs : gmap string value)
  : result (value * string) :=
  match fuel with
  | O => Raise (Exn RecursionError "maximum recursion depth exceeded")
  | S fuel' =>
      match scanstring s with
      | Raise err => Raise err
      | Ok (key, s1) =>
          match skip_whitespace s1 with
          | String c r =>
              if nat_of_ascii c =? 58 then
                match scan_once fuel' (skip_whitespace r) with
                | Raise err => Raise err
                | Ok (v, s2) =>
                    let pairs' := <[key := v]> pairs in
                    match skip_whitespace s2 with
                    | String c1 r1 =>
                        if nat_of_ascii c1 =? 125 then Ok (VDict pairs', r1)
                        else if nat_of_ascii c1 =? 44 then
                          match skip_whitespace r1 with
                          | String c2 r2 =>
                              if nat_of_ascii c2 =? 34
                              then JSONObject fuel' r2 pairs'
                              else decode_error
                                     "Expecting property name enclosed in double quotes"
                          | EmptyString =>
                              decode_error
                                "Expecting property name enclosed in double quotes"
                          end
                        else decode_error "Expecting ',' delimiter"
                    | EmptyString => decode_error "Expecting ',' delimiter"
                    end
                end
              else decode_error "Expecting ':' delimiter"
          | EmptyString => decode_error "Expecting ':' delimiter"
          end
      end
  end
with JSONArray (fuel : nat) (s : string) (values : list value)
  : result (value * string) :=
  match fuel with
  | O => Raise (Exn RecursionError "maximum recursion depth exceeded")
  | S fuel' =>
      match scan_once fuel' s with
      | Raise err => Raise err
      | Ok (v, s1) =>
          let values' := (values ++ [v])%list in
          match skip_whitespace s1 with
          | String c r =>
              if nat_of_ascii c =? 93 then Ok (VList values', r)
              else if nat_of_ascii c =? 44
              then JSONArray fuel' (skip_whitespace r) values'
              else decode_error "Expecting ',' delimiter"
          | EmptyString => decode_error "Expecting ',' delimiter"
          end
      end
  end.

(** [JSONDecoder.decode] behind [json.loads] for a string: one value,
    with white space around it and nothing else. *)
Definition decode (s : string) : result value :=
  match strip_prefix (utf8 65279) s with
  | Some _ => decode_error "Unexpected UTF-8 BOM (decode using utf-8-sig)"
  | None =>
      match scan_once (2 * String.length s + 2) (skip_whitespace s) with
      | Raise err => Raise err
      | Ok (obj, rest) =>
          match skip_whitespace rest with
          | EmptyString => Ok obj
          | String _ _ => decode_error "Extra data"
          end
      end
  end.

End json.

(* ================================================================= *)
(** ** The data frame library and the chart library *)

(** A row of a result set is a dictionary. *)
Abbreviation row := (gmap string value).

Module pd.

(** What a cell of a sheet read by [pd.read_excel] can hold. *)
Inductive cell : Type :=
| CNone
| CNA
| CNaT
| CBool (b : bool)
| CInt (n : Z)
| CFloat (f : spec_float)
| CStr (s : string)
| CTimestamp (ns : Z).

Definition float_is_nan (f : spec_float) : bool :=
  match f with
  | S754_nan => true
  | _ => false
  end.

(** [pd.isna(v)] of a scalar: the missing values are [None], [pd.NA],
    [pd.NaT] and the float NaN. *)
Definition isna (v : cell) : bool :=
  match v with
  | CNone | CNA | CNaT => true
  | CFloat f => float_is_nan f
  | _ => false
  end.

(** [row[label]] on a line of a sheet: a label that is not a column is a
    [KeyError]. *)
Definition series_getitem (r : gmap string cell) (label : string) : result cell :=
  match r !! label with
  | Some v => Ok v
  | None => Raise (Exn KeyError ("'" ++ label ++ "'"))
  end.

(** A frame is the list of its lines, each line the values of its columns
    by label. *)

(** The labels of the columns: the keys of the records. *)
Definition columns (df : list row) : gset string :=
  ⋃ (dom <$> df).

(** *** The constructor [pd.DataFrame(records)]

    [pd.DataFrame] is library code.  The functions of the signal fetcher
    take the constructor as a parameter [DataFrame]; what follows is a
    reference constructor for that parameter.  For a list of dictionaries,
    pandas takes the keys as columns, fills a missing key with NaN, and
    looks for one type for each column: a column of numbers with a float or
    a missing value in it becomes a column of floats, a column of integers
    or of booleans only keeps them, and any other column keeps its objects
    as they are. *)

(** The type that is found for a column. *)
Inductive dtype : Type :=
| dtype_object
| dtype_bool
| dtype_int
| dtype_float.

(** What has been seen in a column so far. *)
Record seen : Type := Seen {
  null_ : bool;
  nan_ : bool;
  bool_ : bool;
  int_ : bool;
  uint_ : bool;
  sint_ : bool;
  float_ : bool;
  object_ : bool
}.

Definition nothing_seen : seen :=
  {| null_ := false; nan_ := false; bool_ := false; int_ := false;
     uint_ := false; sint_ := false; float_ := false; object_ := false |}.

Definition INT64_MIN : Z := (- 2 ^ 63)%Z.
Definition INT64_MAX : Z := (2 ^ 63 - 1)%Z.
Definition UINT64_MAX : Z := (2 ^ 64 - 1)%Z.

(** [float(n)] of an integer: rounded to nearest even, and an
    [OverflowError] when it is too large for a float. *)
Definition float_of_int (n : Z) : result spec_float :=
  match binary_normalize 53 1024 n 0%Z false with
  | S754_infinity _ => Raise (Exn OverflowError "int too large to convert to float")
  | f => Ok f
  end.

(** The scan of the values of a column, which stops at the first value
    that is neither missing, nor a boolean, nor a number that fits. *)
Fixpoint scan_objects (col : list value) (s : seen) : result seen :=
  match col with
  | [] => Ok s
  | v :: rest =>
      match v with
      | VNone =>
          scan_objects rest
            {| null_ := true; nan_ := nan_ s; bool_ := bool_ s; int_ := int_ s;
               uint_ := uint_ s; sint_ := sint_ s; float_ := float_ s;
               object_ := object_ s |}
      | VFloat f =>
          if float_is_nan f then
            scan_objects rest
              {| null_ := null_ s; nan_ := true; bool_ := bool_ s; int_ := int_ s;
                 uint_ := uint_ s; sint_ := sint_ s; float_ := float_ s;
                 object_ := object_ s |}
          else
            scan_objects rest
              {| null_ := null_ s; nan_ := nan_ s; bool_ := bool_ s; int_ := int_ s;
                 uint_ := uint_ s; sint_ := sint_ s; float_ := true;
                 object_ := object_ s |}
      | VBool _ =>
          scan_objects rest
            {| null_ := null_ s; nan_ := nan_ s; bool_ := true; int_ := int_ s;
               uint_ := uint_ s; sint_ := sint_ s; float_ := float_ s;
               object_ := object_ s |}
      | VInt n =>
          match float_of_int n with
          | Raise e => Raise e
          | Ok _ =>
              if null_ s then
                scan_objects rest
                  {| null_ := null_ s; nan_ := nan_ s; bool_ := bool_ s; int_ := true;
                     uint_ := uint_ s; sint_ := sint_ s; float_ := float_ s;
                     object_ := object_ s |}
              else
                let sint := sint_ s || ((INT64_MIN <=? n)%Z && (n <? 0)%Z) in
                let uint := uint_ s || ((INT64_MAX <? n)%Z && (n <=? UINT64_MAX)%Z) in
                if (uint && sint) || (UINT64_MAX <? n)%Z || (n <? INT64_MIN)%Z then
                  Ok {| null_ := null_ s; nan_ := nan_ s; bool_ := bool_ s; int_ := true;
                        uint_ := uint; sint_ := sint; float_ := float_ s;
                        object_ := true |}
                else
                  scan_objects rest
                    {| null_ := null_ s; nan_ := nan_ s; bool_ := bool_ s; int_ := true;
                       uint_ := uint; sint_ := sint; float_ := float_ s;
                       object_ := object_ s |}
          end
      | VStr _ | VList _ | VDict _ =>
          Ok {| null_ := null_ s; nan_ := nan_ s; bool_ := bool_ s; int_ := int_ s;
                uint_ := uint_ s; sint_ := sint_ s; float_ := float_ s;
                object_ := true |}
      end
  end.

(** The type of a column from what was seen in it. *)
Definition dtype_of (s : seen) : dtype :=
  if object_ s then dtype_object
  else if bool_ s then
    if null_ s || nan_ s || int_ s || float_ s then dtype_object else dtype_bool
  else if null_ s || nan_ s then
    if float_ s || int_ s || nan_ s then dtype_float else dtype_object
  else if float_ s then dtype_float
  else if int_ s then dtype_int
  else dtype_object.

(** A value as a column of the type [t] holds it. *)
Definition convert (t : dtype) (v : value) : value :=
  match t, v with
  | dtype_float, VNone => VFloat S754_nan
  | dtype_float, VInt n => VFloat (binary_normalize 53 1024 n 0%Z false)
  | _, _ => v
  end.

(** The values of the column [label] in the records, NaN where the key
    is missing. *)
Definition raw_column (label : string) (records : list row) : list value :=
  (fun r : row => default (VFloat S754_nan) (r !! label)) <$> records.

(** The types of the columns [labels]. *)
Fixpoint infer_dtypes (labels : list string) (records : list row)
  : result (gmap string dtype) :=
  match labels with
  | [] => Ok ∅
  | label :: rest =>
      match scan_objects (raw_column label records) nothing_seen with
      | Raise e => Raise e
      | Ok s =>
          match infer_dtypes rest records with
          | Raise e => Raise e
          | Ok types => Ok (<[label := dtype_of s]> types)
          end
      end
  end.

(** The line of the frame for a record. *)
Definition frame_line (types : gmap string dtype) (r : row) : row :=
  map_imap
    (fun (label : string) (t : dtype) =>
       Some (convert t (default (VFloat S754_nan) (r !! label))))
    types.

(** The reference constructor: no record, no column; otherwise one line
    for each record, in order. *)
Definition DataFrame (records : list row) : result (list row) :=
  match infer_dtypes (elements (columns records)) records with
  | Raise e => Raise e
  | Ok types => Ok (frame_line types <$> records)
  end.

(** [df[label]]: the column, in the order of the lines; a record without
    the key has NaN in it.  A label that is not a column is a [KeyError]. *)
Definition getitem (df : list row) (label : string) : result (list value) :=
  if bool_decide (label ∈ columns df)
  then Ok ((fun r : row => default (VFloat S754_nan) (r !! label)) <$> df)
  else Raise (Exn KeyError ("'" ++ label ++ "'")).

End pd.

Module plt.

(** A figure: its texts and its lines, each a label and the values that
    are drawn against the number of the sample. *)
Record figure : Type := Figure {
  fig_lines : list (string * list value);
  fig_xlabel : string;
  fig_ylabel : string;
  fig_title : string;
  fig_legend : bool
}.

Definition new_figure : figure :=
  {| fig_lines := []; fig_xlabel := EmptyString; fig_ylabel := EmptyString; fig_title := EmptyString;
     fig_legend := false |}.

Definition add_line (label : string) (ys : list value) (f : figure) : figure :=
  {| fig_lines := (fig_lines f ++ [(label, ys)])%list; fig_xlabel := fig_xlabel f;
     fig_ylabel := fig_ylabel f; fig_title := fig_title f;
     fig_legend := fig_legend f |}.

Definition decorate (xl yl t : string) (f : figure) : figure :=
  {| fig_lines := fig_lines f; fig_xlabel := xl; fig_ylabel := yl;
     fig_title := t; fig_legend := true |}.

End plt.

(* ================================================================= *)
(** ** The remote database client *)

Module supabase.

(** One filter of a query: a column, an operator and the text it is
    compared with. *)
Record filter_spec : Type := Filter {
  f_column : string;
  f_operator : string;
  f_criteria : string
}.

(** What a chain of builder calls describes. *)
Record query : Type := Query {
  q_table : string;
  q_columns : string;
  q_filters : list filter_spec;
  q_limit : option nat
}.

(** [client.table(name)] *)
Definition table (name : string) : string := name.

(** [.select(columns)] starts a query without filters and without limit. *)
Definition select (columns : string) (tbl : string) : query :=
  {| q_table := tbl; q_columns := columns; q_filters := []; q_limit := None |}.

(** [.filter(column, operator, criteria)] adds one filter. *)
Definition filter (column operator criteria : string) (q : query) : query :=
  {| q_table := q_table q; q_columns := q_columns q;
     q_filters := (q_filters q ++ [Filter column operator criteria])%list;
     q_limit := q_limit q |}.

(** [.eq(column, value)] is the filter with the operator [eq]. *)
Definition eq (column value : string) (q : query) : query :=
  filter column "eq" value q.

(** [.insert(record)] on a table: the request that [.execute()] sends. *)
Record insert_request : Type := Insert {
  i_table : string;
  i_record : gmap string pd.cell
}.

Definition insert (record : gmap string pd.cell) (tbl : string) : insert_request :=
  {| i_table := tbl; i_record := record |}.

(** A reference reading of a query against the rows of its table.  [cmp]
    is the order of the remote service on the texts of a column. *)
Section Reference.
Variable cmp : string -> string -> comparison.

Definition holds (r : row) (f : filter_spec) : bool :=
  match r !! f_column f with
  | Some (VStr s) =>
      if String.eqb (f_operator f) "eq" then String.eqb s (f_criteria f)
      else if String.eqb (f_operator f) "gte" then
        match cmp s (f_criteria f) with Lt => false | _ => true end
      else if String.eqb (f_operator f) "lt" then
        match cmp s (f_criteria f) with Lt => true | _ => false end
      else false
  | _ => false
  end.

Definition selected (q : query) (r : row) : bool :=
  forallb (holds r) (q_filters q).

Definition answer (rows : list row) (q : query) : list row :=
  let hits := List.filter (selected q) rows in
  match q_limit q with
  | Some n => take n hits
  | None => hits
  end.
End Reference.

End supabase.

(* ================================================================= *)
(** ** [src/utils/signal-fetcher.py] *)

Module signal_fetcher.

(** What the process has done that can be seen from outside: the lines it
    printed and the files it saved. *)
Record world : Type := World {
  stdout : list string;
  files : gmap string plt.figure
}.

Definition print (line : string) (w : world) : world :=
  {| stdout := (stdout w ++ [line])%list; files := files w |}.

Definition savefig (filename : string) (f : plt.figure) (w : world) : world :=
  {| stdout := stdout w; files := <[filename := f]> (files w) |}.

(** How a run ends. *)
Inductive outcome : Type :=
| Completed
| SystemExit (code : Z)
| Uncaught (e : exn).

Definition exit_code (o : outcome) : Z :=
  match o with
  | Completed => 0
  | SystemExit code => code
  | Uncaught _ => 1
  end.

(** The three lists that [parse_signals] fills. *)
Record channels : Type := Channels {
  xs : list value;
  ys : list value;
  zs : list value
}.

Definition accelerometer_id : string := "3b48eed5-6ece-4eb8-8c88-b5e645839385".
Definition gyroscope_id : string := "d4ad2653-b430-40c2-9f47-bdc140119c57".

(** The query that [fetch_accelerometer_data] builds. *)
Definition accelerometer_query (date_str : string) : supabase.query :=
  let sensor_type_id := accelerometer_id in
  supabase.filter "timestamp" "lt" (date_str ++ "T23:59:59")
    (supabase.filter "timestamp" "gte" (date_str ++ "T00:00:00")
       (supabase.eq "sensor_type_id" sensor_type_id
          (supabase.select "*" (supabase.table "sensor_data")))).

(** The query that [fetch_gyroscope_data] builds. *)
Definition gyroscope_query (date_str : string) : supabase.query :=
  let sensor_type_id := gyroscope_id in
  supabase.filter "timestamp" "lt" (date_str ++ "T23:59:59")
    (supabase.filter "timestamp" "gte" (date_str ++ "T00:00:00")
       (supabase.eq "sensor_type_id" sensor_type_id
          (supabase.select "*" (supabase.table "sensor_data")))).

Section Script.
(** [query.execute()]: the rows that the remote service answers, or the
    error of the call. *)
Variable execute : supabase.query -> result (list row).
(** The string decoder behind [json.loads]. *)
Variable decode : string -> result value.
(** [pd.DataFrame(records)]: the frame that pandas builds from the
    records, or the error of the call. *)
Variable DataFrame : list row -> result (list row).
(** [plt.plot(df.index, column, label=...)]: the renderer accepts the
    column or raises. *)
Variable plt_plot : list value -> result unit.

Definition fetch_accelerometer_data (date_str : string) : result (list row) :=
  response ← execute (accelerometer_query date_str);
  Ok response.

Definition fetch_gyroscope_data (date_str : string) : result (list row) :=
  response ← execute (gyroscope_query date_str);
  Ok response.

(** Lines 47 to 50: the payload itself when it is a dictionary, what
    [json.loads] makes of it otherwise. *)
Definition signal_of (signal_json : value) : result value :=
  if is_dict signal_json then Ok signal_json
  else json.loads decode signal_json.

(** The body of the [try] of [parse_signals], lines 47 to 53, from the
    lists [c]: the lists as the body leaves them, and the exception
    when it stops early. *)
Definition try_body (signal_json : value) (c : channels) : channels * option exn :=
  match signal_of signal_json with
  | Raise e => (c, Some e)
  | Ok signal =>
      match get_default signal "x" (VInt 0) with
      | Raise e => (c, Some e)
      | Ok x =>
          let c1 := {| xs := xs c ++ [x]; ys := ys c; zs := zs c |}%list in
          match get_default signal "y" (VInt 0) with
          | Raise e => (c1, Some e)
          | Ok y =>
              let c2 := {| xs := xs c1; ys := ys c1 ++ [y]; zs := zs c1 |}%list in
              match get_default signal "z" (VInt 0) with
              | Raise e => (c2, Some e)
              | Ok z =>
                  ({| xs := xs c2; ys := ys c2; zs := zs c2 ++ [z] |}%list, None)
              end
          end
      end
  end.

(** One turn of the loop of [parse_signals]. *)
Definition parse_signals_row (st : channels * list string) (r : row)
  : channels * list string :=
  let '(c, out) := st in
  let signal_json := dict_get r "data" in
  if truthy signal_json then
    match try_body signal_json c with
    | (c', None) => (c', out)
    | (c', Some e) => (c', out ++ ["Error parsing signal: " ++ exn_str e]%string)%list
    end
  else (c, out).

(** [parse_signals(data)]: the three lists, and the lines printed. *)
Definition parse_signals (data : list row) : channels * list string :=
  fold_left parse_signals_row data
    ({| xs := []; ys := []; zs := [] |}, []).

(** One turn of the loop of [parse_signals_to_dataframe]: nothing
    catches what it raises. *)
Definition parse_signals_to_dataframe_row (records : list row) (r : row)
  : result (list row) :=
  let signal_json := dict_get r "data" in
  if truthy signal_json then
    signal ← signal_of signal_json;
    x ← get_default signal "x" (VInt 0);
    y ← get_default signal "y" (VInt 0);
    z ← get_default signal "z" (VInt 0);
    let timestamp := dict_get r "timestamp" in
    Ok (records ++ [ <["timestamp" := timestamp]>
                       (<["z" := z]> (<["y" := y]> (<["x" := x]> ∅))) ])%list
  else Ok records.

Fixpoint parse_signals_to_dataframe_loop (data : list row) (records : list row)
  : result (list row) :=
  match data with
  | [] => Ok records
  | r :: rest =>
      records' ← parse_signals_to_dataframe_row records r;
      parse_signals_to_dataframe_loop rest records'
  end.

(** [parse_signals_to_dataframe(data)] *)
Definition parse_signals_to_dataframe (data : list row) : result (list row) :=
  records ← parse_signals_to_dataframe_loop data [];
  DataFrame records.

(** [plot_signals_from_dataframe(df, title, filename)]: the figure is
    built line by line and saved at the end. *)
Definition plot_signals_from_dataframe (df : list row) (title filename : string)
    (w : world) : result unit * world :=
  let fig := plt.new_figure in
  match (col ← pd.getitem df "x"; _ ← plt_plot col; Ok col) with
  | Raise e => (Raise e, w)
  | Ok x =>
  let fig := plt.add_line "X" x fig in
  match (col ← pd.getitem df "y"; _ ← plt_plot col; Ok col) with
  | Raise e => (Raise e, w)
  | Ok y =>
  let fig := plt.add_line "Y" y fig in
  match (col ← pd.getitem df "z"; _ ← plt_plot col; Ok col) with
  | Raise e => (Raise e, w)
  | Ok z =>
  let fig := plt.add_line "Z" z fig in
  let fig := plt.decorate "Sample" "Acceleration" title fig in
  let w := savefig filename fig w in
  let w := print ("Plot saved as " ++ filename) w in
  (Ok (), w)
  end end end.

(** The script, run with the date [date] from the world [w]. *)
Definition main (date : string) (w : world) : outcome * world :=
  match fetch_accelerometer_data date with
  | Raise e => (Uncaught e, w)
  | Ok accel_data =>
  match fetch_gyroscope_data date with
  | Raise e => (Uncaught e, w)
  | Ok gyro_data =>
  if list_is_empty accel_data then
    let w := print "No data found for the given date." w in
    (SystemExit 0, w)
  else if list_is_empty gyro_data then
    let w := print "No gyroscope data found for the given date." w in
    (SystemExit 0, w)
  else
    match parse_signals_to_dataframe accel_data with
    | Raise e => (Uncaught e, w)
    | Ok accel_df =>
    match plot_signals_from_dataframe accel_df "Accelerometer Signal"
            "accel_signal_plot.png" w with
    | (Raise e, w) => (Uncaught e, w)
    | (Ok _, w) =>
    match parse_signals_to_dataframe gyro_data with
    | Raise e => (Uncaught e, w)
    | Ok gyro_df =>
    match plot_signals_from_dataframe gyro_df "Gyroscope Signal"
            "gyro_signal_plot.png" w with
    | (Raise e, w) => (Uncaught e, w)
    | (Ok _, w) => (Completed, w)
    end end end end
  end end.
End Script.

(** *** Vocabulary of the statements about the two decode paths *)

Definition no_channels : channels := {| xs := []; ys := []; zs := [] |}.

(** The lists of [c1] followed by those of [c2]. *)
Definition channels_app (c1 c2 : channels) : channels :=
  {| xs := xs c1 ++ xs c2; ys := ys c1 ++ ys c2; zs := zs c1 ++ zs c2 |}%list.

(** One sample. *)
Definition sample (x y z : value) : channels :=
  {| xs := [x]; ys := [y]; zs := [z] |}.

(** The rows that pass the test [if signal_json:]. *)
Definition retained (data : list row) : list row :=
  List.filter (fun r : row => truthy (dict_get r "data")) data.

(** A payload decodes to the object [o]: it is [o] already, or it is a
    string that the decoder turns into [o]. *)
Definition decodes_to (decode : string -> result value) (payload : value)
    (o : gmap string value) : Prop :=
  payload = VDict o \/ exists s : string, payload = VStr s /\ decode s = Ok (VDict o).

(** The line that [parse_signals] prints for the exception [e]. *)
Definition error_line (e : exn) : string := "Error parsing signal: " ++ exn_str e.

(** The record that [parse_signals_to_dataframe] appends for a row whose
    payload is the object [o]. *)
Definition record_of (o : gmap string value) (r : row) : row :=
  <["timestamp" := dict_get r "timestamp"]>
    (<["z" := dict_get_default o "z" (VInt 0)]>
       (<["y" := dict_get_default o "y" (VInt 0)]>
          (<["x" := dict_get_default o "x" (VInt 0)]> ∅))).

(** The column [label] of a frame, read off its records in order. *)
Definition column (label : string) (df : list row) : list value :=
  (fun rec : row => dict_get rec label) <$> df.

(** C5 as the specification words it: a row whose payload is a string
    that fails to decode is logged by [parse_signals] and makes
    [parse_signals_to_dataframe] raise. *)
Definition malformed_payload_claim (decode : string -> result value)
    (DataFrame : list row -> result (list row)) : Prop :=
  forall (data : list row) (r : row) (s : string) (e : exn),
    r ∈ data -> r !! "data" = Some (VStr s) -> decode s = Raise e ->
    error_line e ∈ (parse_signals decode data).2 /\
    raises (parse_signals_to_dataframe decode DataFrame data).

(** C8 as the specification words it: when the payload of every retained
    row decodes without error, the frame exists and its columns are the
    three lists. *)
Definition decode_paths_claim (decode : string -> result value)
    (DataFrame : list row -> result (list row)) : Prop :=
  forall data : list row,
    (forall r : row, r ∈ data -> truthy (dict_get r "data") = true ->
       returns (signal_of decode (dict_get r "data"))) ->
    exists df : list row,
      parse_signals_to_dataframe decode DataFrame data = Ok df /\
      column "x" df = xs (parse_signals decode data).1 /\
      column "y" df = ys (parse_signals decode data).1 /\
      column "z" df = zs (parse_signals decode data).1.

End signal_fetcher.

(* ================================================================= *)
(** ** [src/utils/events-importer.py] *)

Module events_importer.

(** [float("inf")] and [float("-inf")] *)
Definition inf : spec_float := S754_infinity false.
Definition neg_inf : spec_float := S754_infinity true.

(** [isinstance(v, float)] *)
Definition is_float (v : pd.cell) : bool :=
  match v with
  | pd.CFloat _ => true
  | _ => false
  end.

(** [v == f] for a float [f]; the script asks it of floats only. *)
Definition eq_float (v : pd.cell) (f : spec_float) : bool :=
  match v with
  | pd.CFloat g => SFeqb g f
  | _ => false
  end.

(** The test of line 36. *)
Definition is_nan_or_infinite (v : pd.cell) : bool :=
  pd.isna v || (is_float v && (eq_float v inf || eq_float v neg_inf)).

(** Lines 26 to 33: the record of a line of the sheet. *)
Definition event_data_of (r : gmap string pd.cell) : result (gmap string pd.cell) :=
  e_ind ← pd.series_getitem r "eInd";
  e_description_engl ← pd.series_getitem r "eDescriptionENGL";
  e_description_slo ← pd.series_getitem r "eDescriptionSLO";
  e_id ← pd.series_getitem r "eID";
  e_description_butt ← pd.series_getitem r "eDescriptionButt";
  notes ← pd.series_getitem r "Notes";
  Ok (<["notes" := notes]>
        (<["e_description_butt" := e_description_butt]>
           (<["e_id" := e_id]>
              (<["e_description_slo" := e_description_slo]>
                 (<["e_description_engl" := e_description_engl]>
                    (<["e_ind" := e_ind]> ∅)))))).

(** Lines 35 to 37: the loop over the items of the record, which sets a
    key to [None] when its value is NaN or infinite. *)
Definition replace_nan_or_infinite (event_data : gmap string pd.cell)
  : gmap string pd.cell :=
  map_fold
    (fun (k : string) (v : pd.cell) (d : gmap string pd.cell) =>
       if is_nan_or_infinite v then <[k := pd.CNone]> d else d)
    event_data event_data.

(** The request of line 38 for a record. *)
Definition insert_of (event_data : gmap string pd.cell) : supabase.insert_request :=
  supabase.insert event_data (supabase.table "event_codes").

Section Script.
(** The state of the remote service. *)
Variable Remote : Type.
(** [request.execute()] for an insert: whether the call returned or
    raised, and the state the service is left in. *)
Variable execute : supabase.insert_request -> Remote -> result unit * Remote.
(** [pd.read_excel(path)]: the lines of the sheet. *)
Variable read_excel : string -> result (list (gmap string pd.cell)).

(** The insert calls issued so far, oldest first, and the remote
    service. *)
Record world : Type := World {
  calls : list supabase.insert_request;
  remote : Remote
}.

(** The body of the loop of line 25 for one line of the sheet. *)
Definition import_row (r : gmap string pd.cell) (w : world) : result unit * world :=
  match event_data_of r with
  | Raise e => (Raise e, w)
  | Ok event_data =>
      let event_data := replace_nan_or_infinite event_data in
      let request := insert_of event_data in
      let '(response, remote') := execute request (remote w) in
      (response, {| calls := (calls w ++ [request])%list; remote := remote' |})
  end.

(** The loop of line 25: it stops at the first exception. *)
Fixpoint import_rows (rows : list (gmap string pd.cell)) (w : world)
  : result unit * world :=
  match rows with
  | [] => (Ok (), w)
  | r :: rest =>
      match import_row r w with
      | (Ok _, w') => import_rows rest w'
      | (Raise e, w') => (Raise e, w')
      end
  end.

(** The script, run with the path [xlsx_path] from the world [w]. *)
Definition main (xlsx_path : string) (w : world) : result unit * world :=
  match read_excel xlsx_path with
  | Raise e => (Raise e, w)
  | Ok df => import_rows df w
  end.
End Script.

Arguments World {Remote} calls remote.
Arguments calls {Remote} w.
Arguments remote {Remote} w.
Arguments import_row {Remote} execute r w.
Arguments import_rows {Remote} execute rows w.
Arguments main {Remote} execute read_excel xlsx_path w.

(** A reference remote service: the table holds the records inserted so
    far; an insert that [rejects] refuses raises and leaves the table as
    it is. *)
Definition table_execute (rejects : gmap string pd.cell -> bool)
    (request : supabase.insert_request) (tbl : list (gmap string pd.cell))
  : result unit * list (gmap string pd.cell) :=
  if rejects (supabase.i_record request)
  then (Raise (Exn APIError "insert refused"), tbl)
  else (Ok (), (tbl ++ [supabase.i_record request])%list).

(** *** Vocabulary of the statements about the importer *)

Definition is_nan (v : pd.cell) : Prop := v = pd.CFloat S754_nan.

Definition is_infinite (v : pd.cell) : Prop :=
  v = pd.CFloat (S754_infinity false) \/ v = pd.CFloat (S754_infinity true).

(** The six fields of a record, each with the column of the sheet that it
    is read from. *)
Definition field_columns : list (string * string) :=
  [("e_ind", "eInd"); ("e_description_engl", "eDescriptionENGL");
   ("e_description_slo", "eDescriptionSLO"); ("e_id", "eID");
   ("e_description_butt", "eDescriptionButt"); ("notes", "Notes")].

(** The insert call for a line of the sheet: on the table [event_codes],
    with the record of that line after the replacement. *)
Definition request_of (r : gmap string pd.cell) (request : supabase.insert_request) : Prop :=
  exists event_data : gmap string pd.cell,
    event_data_of r = Ok event_data /\
    request = {| supabase.i_table := "event_codes";
                 supabase.i_record := replace_nan_or_infinite event_data |}.

(** The inserts of [rows], sent in order to the service in the state [rm],
    all succeed. *)
Fixpoint inserts_succeed {Remote : Type}
    (execute : supabase.insert_request -> Remote -> result unit * Remote)
    (rows : list (gmap string pd.cell)) (rm : Remote) : Prop :=
  match rows with
  | [] => True
  | r :: rest =>
      exists (request : supabase.insert_request) (rm' : Remote),
        request_of r request /\
        execute request rm = (Ok (), rm') /\
        inserts_succeed execute rest rm'
  end.

End events_importer.

(* ================================================================= *)
(** ** Sample inputs *)

Module examples.

(** The quotation mark. *)
Definition dq : string := String "034"%char EmptyString.

(** A key or a text between quotation marks. *)
Definition quoted (s : string) : string := dq ++ s ++ dq.

(** The text of the object with [x = 1], [y = 2] and [z = 3]. *)
Definition xyz_text : string :=
  "{" ++ quoted "x" ++ ":1," ++ quoted "y" ++ ":2," ++ quoted "z" ++ ":3}".

(** The text of the object with [x = 4] and [y = 5], and no [z]. *)
Definition xy_text : string :=
  "{" ++ quoted "x" ++ ": 4, " ++ quoted "y" ++ ": 5}".

(** The texts of the objects with [x] null and with [x = 1]. *)
Definition x_null_text : string := "{" ++ quoted "x" ++ ":null}".
Definition x_one_text : string := "{" ++ quoted "x" ++ ":1}".

Definition xyz_object : gmap string value :=
  <["z" := VInt 3]> (<["y" := VInt 2]> (<["x" := VInt 1]> ∅)).

Definition xy_object : gmap string value :=
  <["y" := VInt 5]> (<["x" := VInt 4]> ∅).

(** A row of [sensor_data] with the payload [payload]. *)
Definition reading (payload : value) : row :=
  <["data" := payload]> (<["timestamp" := VStr "2024-05-01T10:00:00"]> ∅).

(** A row of [sensor_data] of the sensor [id] at the time [ts]. *)
Definition sensor_row (id ts : string) : row :=
  <["sensor_type_id" := VStr id]>
    (<["timestamp" := VStr ts]> (<["data" := VStr xyz_text]> ∅)).

(** A row without payload. *)
Definition reading_without_data : row :=
  <["timestamp" := VStr "2024-05-01T10:00:00"]> ∅.

(** A remote service that has one accelerometer row and no gyroscope
    row. *)
Definition execute_accelerometer_only (q : supabase.query) : result (list row) :=
  match supabase.q_filters q with
  | f :: _ =>
      if String.eqb (supabase.f_criteria f) signal_fetcher.accelerometer_id
      then Ok [reading (VStr xyz_text)]
      else Ok []
  | [] => Ok []
  end.

(** A remote service without rows. *)
Definition execute_nothing (q : supabase.query) : result (list row) := Ok [].

Definition plot_anything (col : list value) : result unit := Ok ().

Definition empty_world : signal_fetcher.world :=
  {| signal_fetcher.stdout := []; signal_fetcher.files := ∅ |}.

(** A line of the sheet of event codes. *)
Definition sheet_line (e_ind e_id notes : pd.cell) : gmap string pd.cell :=
  <["Notes" := notes]>
    (<["eDescriptionButt" := pd.CStr "B"]>
       (<["eID" := e_id]>
          (<["eDescriptionSLO" := pd.CStr "opis"]>
             (<["eDescriptionENGL" := pd.CStr "description"]>
                (<["eInd" := e_ind]> ∅))))).

(** The record that lines 26 to 33 build for such a line. *)
Definition event_data_line (e_ind e_id notes : pd.cell) : gmap string pd.cell :=
  <["notes" := notes]>
    (<["e_description_butt" := pd.CStr "B"]>
       (<["e_id" := e_id]>
          (<["e_description_slo" := pd.CStr "opis"]>
             (<["e_description_engl" := pd.CStr "description"]>
                (<["e_ind" := e_ind]> ∅))))).

(** Three lines; the second has NaN as its note. *)
Definition sheet_nan_note : list (gmap string pd.cell) :=
  [sheet_line (pd.CInt 1) (pd.CStr "E1") (pd.CStr "first");
   sheet_line (pd.CInt 2) (pd.CStr "E2") (pd.CFloat S754_nan);
   sheet_line (pd.CInt 3) (pd.CStr "E3") (pd.CStr "third")].

(** Three lines; the second has no identifier (NaN). *)
Definition sheet_nan_id : list (gmap string pd.cell) :=
  [sheet_line (pd.CInt 1) (pd.CStr "E1") (pd.CStr "first");
   sheet_line (pd.CInt 2) (pd.CFloat S754_nan) (pd.CStr "second");
   sheet_line (pd.CInt 3) (pd.CStr "E3") (pd.CStr "third")].

(** A table that accepts every record. *)
Definition accept_all (record : gmap string pd.cell) : bool := false.

(** A table whose column [e_id] refuses null. *)
Definition e_id_not_null (record : gmap string pd.cell) : bool :=
  match record !! "e_id" with
  | Some pd.CNone => true
  | _ => false
  end.

Definition empty_table : events_importer.world (list (gmap string pd.cell)) :=
  {| events_importer.calls := []; events_importer.remote := [] |}.

(** A remote service with one row for each sensor. *)
Definition execute_both_sensors (q : supabase.query) : result (list row) :=
  match supabase.q_filters q with
  | f :: _ =>
      if String.eqb (supabase.f_criteria f) signal_fetcher.accelerometer_id
      then Ok [reading (VStr xyz_text)]
      else Ok [reading (VDict xy_object)]
  | [] => Ok []
  end.

(** A remote service whose gyroscope row has a payload that is not
    JSON. *)
Definition execute_gyroscope_malformed (q : supabase.query) : result (list row) :=
  match supabase.q_filters q with
  | f :: _ =>
      if String.eqb (supabase.f_criteria f) signal_fetcher.accelerometer_id
      then Ok [reading (VStr xyz_text)]
      else Ok [reading (VStr "not json")]
  | [] => Ok []
  end.

(** A remote service whose accelerometer row has no payload. *)
Definition execute_accelerometer_without_data (q : supabase.query) : result (list row) :=
  match supabase.q_filters q with
  | f :: _ =>
      if String.eqb (supabase.f_criteria f) signal_fetcher.accelerometer_id
      then Ok [reading_without_data]
      else Ok [reading (VStr xyz_text)]
  | [] => Ok []
  end.

(** A remote service that has no accelerometer row and fails on the
    gyroscope query. *)
Definition execute_gyroscope_fails (q : supabase.query) : result (list row) :=
  match supabase.q_filters q with
  | f :: _ =>
      if String.eqb (supabase.f_criteria f) signal_fetcher.accelerometer_id
      then Ok []
      else Raise (Exn APIError "connection refused")
  | [] => Ok []
  end.

(** A line of the sheet without the column [eID]. *)
Definition sheet_line_without_id : gmap string pd.cell :=
  <["Notes" := pd.CStr "n"]>
    (<["eDescriptionButt" := pd.CStr "B"]>
       (<["eDescriptionSLO" := pd.CStr "opis"]>
          (<["eDescriptionENGL" := pd.CStr "description"]>
             (<["eInd" := pd.CInt 1]> ∅)))).

End examples.

(* ================================================================= *)
(** * Properties of the signal fetcher *)

Import signal_fetcher.
Local Open Scope list_scope.

Lemma truthy_dict_lookup (o : gmap string value) (k : string) (v : value) :
  o !! k = Some v -> truthy (VDict o) = true.
Proof.
  intros Hk. cbn. apply negb_true_iff, bool_decide_eq_false.
  intros Hdom. apply dom_empty_iff_L in Hdom. subst o.
  by rewrite lookup_empty in Hk.
Qed.

Lemma truthy_str (s : string) : s <> EmptyString -> truthy (VStr s) = true.
Proof. by destruct s. Qed.

Lemma channels_app_nil_r (c : channels) : channels_app c no_channels = c.
Proof. destruct c. unfold channels_app. cbn. by rewrite !app_nil_r. Qed.

Lemma channels_app_assoc (c1 c2 c3 : channels) :
  channels_app c1 (channels_app c2 c3) = channels_app (channels_app c1 c2) c3.
Proof. unfold channels_app. cbn. by rewrite !app_assoc. Qed.

Section DecodePaths.
Variable decode : string -> result value.

(** What a row adds to the lists and to the output, by the cases of the
    source: the test of the payload, lines 47 to 50, then the three
    [get]. *)
Lemma parse_signals_row_skip (c : channels) (out : list string) (r : row) :
  truthy (dict_get r "data") = false ->
  parse_signals_row decode (c, out) r = (c, out).
Proof. intros H. unfold parse_signals_row. by rewrite H. Qed.

Lemma parse_signals_row_object (c : channels) (out : list string) (r : row)
    (o : gmap string value) :
  truthy (dict_get r "data") = true ->
  signal_of decode (dict_get r "data") = Ok (VDict o) ->
  parse_signals_row decode (c, out) r =
    (channels_app c (sample (dict_get_default o "x" (VInt 0))
                            (dict_get_default o "y" (VInt 0))
                            (dict_get_default o "z" (VInt 0))), out).
Proof.
  intros Ht Hs. unfold parse_signals_row, try_body. by rewrite Ht, Hs.
Qed.

Lemma parse_signals_row_not_object (c : channels) (out : list string) (r : row)
    (v : value) :
  truthy (dict_get r "data") = true ->
  signal_of decode (dict_get r "data") = Ok v ->
  is_dict v = false ->
  exists e, get_default v "x" (VInt 0) = Raise e /\
    parse_signals_row decode (c, out) r = (c, out ++ [error_line e]).
Proof.
  intros Ht Hs Hd. unfold parse_signals_row, try_body. rewrite Ht, Hs.
  destruct v; try discriminate; cbn; eexists; split; reflexivity.
Qed.

Lemma parse_signals_row_raise (c : channels) (out : list string) (r : row) (e : exn) :
  truthy (dict_get r "data") = true ->
  signal_of decode (dict_get r "data") = Raise e ->
  parse_signals_row decode (c, out) r = (c, out ++ [error_line e]).
Proof.
  intros Ht Hs. unfold parse_signals_row, try_body. by rewrite Ht, Hs.
Qed.

(** A row adds nothing, or one element to each list. *)
Lemma parse_signals_row_cases (c : channels) (out : list string) (r : row) :
  (exists lines, parse_signals_row decode (c, out) r = (c, out ++ lines)) \/
  (exists x y z, parse_signals_row decode (c, out) r = (channels_app c (sample x y z), out)).
Proof.
  destruct (truthy (dict_get r "data")) eqn:Ht.
  - destruct (signal_of decode (dict_get r "data")) as [v|e] eqn:Hs.
    + destruct (is_dict v) eqn:Hd.
      * destruct v; try discriminate. right. do 3 eexists.
        by apply parse_signals_row_object.
      * left. destruct (parse_signals_row_not_object c out r v Ht Hs Hd) as (e & _ & ->).
        by eexists.
    + left. rewrite (parse_signals_row_raise c out r e Ht Hs). by eexists.
  - left. exists []. rewrite app_nil_r. by apply parse_signals_row_skip.
Qed.

(** The loop from any lists and any output is the loop from nothing,
    appended. *)
Lemma parse_signals_row_acc (c : channels) (out : list string) (r : row) :
  parse_signals_row decode (c, out) r =
    (channels_app c (parse_signals_row decode (no_channels, []) r).1,
     out ++ (parse_signals_row decode (no_channels, []) r).2).
Proof.
  unfold parse_signals_row, try_body.
  destruct (truthy (dict_get r "data")); cbn;
    [|by rewrite channels_app_nil_r, app_nil_r].
  destruct (signal_of decode (dict_get r "data")) as [v|e]; cbn;
    [|by rewrite channels_app_nil_r].
  destruct v; cbn; by rewrite ?channels_app_nil_r, ?app_nil_r.
Qed.

Lemma parse_signals_fold_acc (data : list row) (c : channels) (out : list string) :
  fold_left (parse_signals_row decode) data (c, out) =
    (channels_app c (parse_signals decode data).1,
     out ++ (parse_signals decode data).2).
Proof.
  unfold parse_signals. fold no_channels.
  revert c out. induction data as [|r data IH]; intros c out; cbn [fold_left].
  - cbn. by rewrite channels_app_nil_r, app_nil_r.
  - rewrite (parse_signals_row_acc c out r).
    destruct (parse_signals_row decode (no_channels, []) r) as [c1 o1] eqn:Hr.
    cbn [fst snd]. rewrite (IH c1 o1), IH.
    cbn [fst snd]. by rewrite channels_app_assoc, app_assoc.
Qed.

Lemma parse_signals_app (d1 d2 : list row) :
  parse_signals decode (d1 ++ d2) =
    (channels_app (parse_signals decode d1).1 (parse_signals decode d2).1,
     (parse_signals decode d1).2 ++ (parse_signals decode d2).2).
Proof.
  unfold parse_signals at 1. rewrite fold_left_app.
  change (fold_left (parse_signals_row decode) d1 _) with (parse_signals decode d1).
  destruct (parse_signals decode d1) as [c1 o1]. apply parse_signals_fold_acc.
Qed.

Lemma parse_signals_cons (r : row) (data : list row) :
  parse_signals decode (r :: data) =
    (channels_app (parse_signals_row decode (no_channels, []) r).1
                  (parse_signals decode data).1,
     (parse_signals_row decode (no_channels, []) r).2 ++ (parse_signals decode data).2).
Proof.
  unfold parse_signals at 1. cbn [fold_left]. fold no_channels.
  destruct (parse_signals_row decode (no_channels, []) r) as [c1 o1].
  apply parse_signals_fold_acc.
Qed.

(** The same case analysis for one turn of the loop of
    [parse_signals_to_dataframe]. *)
Lemma dataframe_row_skip (records : list row) (r : row) :
  truthy (dict_get r "data") = false ->
  parse_signals_to_dataframe_row decode records r = Ok records.
Proof. intros H. unfold parse_signals_to_dataframe_row. by rewrite H. Qed.

Lemma dataframe_row_object (records : list row) (r : row) (o : gmap string value) :
  truthy (dict_get r "data") = true ->
  signal_of decode (dict_get r "data") = Ok (VDict o) ->
  parse_signals_to_dataframe_row decode records r = Ok (records ++ [record_of o r]).
Proof.
  intros Ht Hs. unfold parse_signals_to_dataframe_row. by rewrite Ht, Hs.
Qed.

Lemma dataframe_row_not_object (records : list row) (r : row) (v : value) :
  truthy (dict_get r "data") = true ->
  signal_of decode (dict_get r "data") = Ok v ->
  is_dict v = false ->
  exists e, get_default v "x" (VInt 0) = Raise e /\
    parse_signals_to_dataframe_row decode records r = Raise e.
Proof.
  intros Ht Hs Hd. unfold parse_signals_to_dataframe_row. rewrite Ht, Hs.
  destruct v; try discriminate; cbn; eexists; split; reflexivity.
Qed.

Lemma dataframe_row_raise (records : list row) (r : row) (e : exn) :
  truthy (dict_get r "data") = true ->
  signal_of decode (dict_get r "data") = Raise e ->
  parse_signals_to_dataframe_row decode records r = Raise e.
Proof.
  intros Ht Hs. unfold parse_signals_to_dataframe_row. by rewrite Ht, Hs.
Qed.

Lemma dataframe_loop_app (d1 d2 : list row) (records : list row) :
  parse_signals_to_dataframe_loop decode (d1 ++ d2) records =
    match parse_signals_to_dataframe_loop decode d1 records with
    | Ok records' => parse_signals_to_dataframe_loop decode d2 records'
    | Raise e => Raise e
    end.
Proof.
  revert records. induction d1 as [|r d1 IH]; intros records; cbn; [done|].
  destruct (parse_signals_to_dataframe_row decode records r); cbn; [apply IH|done].
Qed.

(** A payload that decodes to an object gets through lines 47 to 50. *)
Lemma decodes_to_signal_of (payload : value) (o : gmap string value) :
  decodes_to decode payload o -> signal_of decode payload = Ok (VDict o).
Proof. by intros [->|(s & -> & Hs)]. Qed.

Lemma signal_of_decodes_to (payload : value) (o : gmap string value) :
  signal_of decode payload = Ok (VDict o) -> decodes_to decode payload o.
Proof.
  unfold signal_of. destruct payload; cbn; intros H; try discriminate.
  - right. by eexists.
  - left. congruence.
Qed.

(** The loop of [parse_signals_to_dataframe] from any records is the
    loop from none, appended. *)
Lemma dataframe_row_acc (records : list row) (r : row) :
  parse_signals_to_dataframe_row decode records r =
    match parse_signals_to_dataframe_row decode [] r with
    | Ok l => Ok (records ++ l)
    | Raise e => Raise e
    end.
Proof.
  unfold parse_signals_to_dataframe_row.
  destruct (truthy (dict_get r "data")); [|by rewrite app_nil_r].
  destruct (signal_of decode (dict_get r "data")) as [v|e]; [|done].
  destruct v; done.
Qed.

Lemma dataframe_loop_acc (data : list row) (records : list row) :
  parse_signals_to_dataframe_loop decode data records =
    match parse_signals_to_dataframe_loop decode data [] with
    | Ok l => Ok (records ++ l)
    | Raise e => Raise e
    end.
Proof.
  revert records. induction data as [|r data IH]; intros records; cbn.
  - by rewrite app_nil_r.
  - rewrite (dataframe_row_acc records r).
    destruct (parse_signals_to_dataframe_row decode [] r) as [l|e]; cbn; [|done].
    rewrite (IH (records ++ l)), (IH l).
    destruct (parse_signals_to_dataframe_loop decode data []); [|done].
    by rewrite app_assoc.
Qed.

(** A column that every record of a frame with records has is read by
    [df[label]] as the records hold it. *)
Lemma getitem_column (df : list row) (label : string) :
  df <> [] ->
  Forall (fun rec : row => is_Some (rec !! label)) df ->
  pd.getitem df label = Ok (column label df).
Proof.
  intros Hne Hall. unfold pd.getitem, column.
  rewrite bool_decide_eq_true_2.
  - f_equal. apply Forall_fmap_ext.
    eapply Forall_impl; [exact Hall|]. intros rec [v Hv]. cbn.
    unfold dict_get. by rewrite Hv.
  - unfold pd.columns. apply elem_of_union_list.
    destruct df as [|rec df]; [done|]. exists (dom rec). split.
    + cbn. left.
    + apply elem_of_dom. by apply Forall_cons in Hall as [? _].
Qed.

Lemma record_of_channels (o : gmap string value) (r : row) :
  dict_get (record_of o r) "x" = dict_get_default o "x" (VInt 0) /\
  dict_get (record_of o r) "y" = dict_get_default o "y" (VInt 0) /\
  dict_get (record_of o r) "z" = dict_get_default o "z" (VInt 0) /\
  dict_get (record_of o r) "timestamp" = dict_get r "timestamp" /\
  is_Some (record_of o r !! "x") /\ is_Some (record_of o r !! "y") /\
  is_Some (record_of o r !! "z").
Proof.
  unfold record_of, dict_get at 1 2 3 4.
  repeat split; by simplify_map_eq.
Qed.

End DecodePaths.

(* ================================================================= *)
(** ** The claims about [parse_signals] and [parse_signals_to_dataframe] *)

Section DecodeClaims.
Variable decode : string -> result value.
Variable DataFrame : list row -> result (list row).

(** [json.loads] raises on the empty string. *)
Hypothesis decode_empty : raises (decode EmptyString).

Lemma decodes_to_truthy (payload : value) (o : gmap string value) :
  decodes_to decode payload o -> o <> ∅ -> truthy payload = true.
Proof using decode_empty.
  intros [->|(s & -> & Hs)] Ho.
  - cbn. apply negb_true_iff, bool_decide_eq_false.
    intros Hdom. by apply dom_empty_iff_L in Hdom.
  - apply truthy_str. intros ->. by rewrite Hs in decode_empty.
Qed.

(** C3.  A row whose payload decodes to an object [o], given as a
    dictionary or as a JSON string, adds exactly the sample
    [(o["x"], o["y"], o["z"])] to the three lists of [parse_signals], and a
    channel whose key is missing from [o] reads [0]: with [x], [y] and
    [z] present the sample is [(x, y, z)], with [z] missing it is
    [(x, y, 0)], and likewise for [x] or [y] missing.  Nothing is printed. *)
Theorem parse_signals_decodes_triple (r : row) (payload : value) (o : gmap string value) :
  r !! "data" = Some payload ->
  decodes_to decode payload o ->
  (forall vx vy vz : value,
      o !! "x" = Some vx -> o !! "y" = Some vy -> o !! "z" = Some vz ->
      parse_signals decode [r] = (sample vx vy vz, [])) /\
  (forall vx vy : value,
      o !! "x" = Some vx -> o !! "y" = Some vy -> o !! "z" = None ->
      parse_signals decode [r] = (sample vx vy (VInt 0), [])) /\
  (forall vx vz : value,
      o !! "x" = Some vx -> o !! "y" = None -> o !! "z" = Some vz ->
      parse_signals decode [r] = (sample vx (VInt 0) vz, [])) /\
  (forall vy vz : value,
      o !! "x" = None -> o !! "y" = Some vy -> o !! "z" = Some vz ->
      parse_signals decode [r] = (sample (VInt 0) vy vz, [])) /\
  (forall (c : channels) (out : list string),
      o <> ∅ ->
      parse_signals_row decode (c, out) r =
        (channels_app c (sample (dict_get_default o "x" (VInt 0))
                                (dict_get_default o "y" (VInt 0))
                                (dict_get_default o "z" (VInt 0))), out)).
Proof using decode_empty.
  intros Hr Hdec.
  assert (Hpay : dict_get r "data" = payload) by (unfold dict_get; by rewrite Hr).
  assert (Hrow : forall (c : channels) (out : list string), o <> ∅ ->
     parse_signals_row decode (c, out) r =
        (channels_app c (sample (dict_get_default o "x" (VInt 0))
                                (dict_get_default o "y" (VInt 0))
                                (dict_get_default o "z" (VInt 0))), out)).
  { intros c out Ho. apply parse_signals_row_object; rewrite Hpay.
    - by apply (decodes_to_truthy payload o).
    - by apply decodes_to_signal_of. }
  assert (Hone : o <> ∅ -> parse_signals decode [r] =
     (sample (dict_get_default o "x" (VInt 0)) (dict_get_default o "y" (VInt 0))
             (dict_get_default o "z" (VInt 0)), [])).
  { intros Ho. unfold parse_signals. cbn [fold_left]. by rewrite Hrow. }
  assert (Hne : forall k v, o !! k = Some v -> o <> ∅).
  { intros k v Hk ->. by rewrite lookup_empty in Hk. }
  repeat split.
  - intros vx vy vz Hx Hy Hz. rewrite Hone by eauto.
    unfold dict_get_default. by rewrite Hx, Hy, Hz.
  - intros vx vy Hx Hy Hz. rewrite Hone by eauto.
    unfold dict_get_default. by rewrite Hx, Hy, Hz.
  - intros vx vz Hx Hy Hz. rewrite Hone by eauto.
    unfold dict_get_default. by rewrite Hx, Hy, Hz.
  - intros vy vz Hx Hy Hz. rewrite Hone by eauto.
    unfold dict_get_default. by rewrite Hx, Hy, Hz.
  - exact Hrow.
Qed.

(** C9.  Whatever the rows hold, the three lists of [parse_signals] have
    the same length: one turn of the loop leaves the three lists as they
    are or appends one element to each of them, because whatever is raised
    in the [try] is raised before the first [append]. *)
Theorem parse_signals_equal_lengths (data : list row) :
  (length (xs (parse_signals decode data).1) = length (ys (parse_signals decode data).1) /\
   length (ys (parse_signals decode data).1) = length (zs (parse_signals decode data).1)) /\
  (forall (c : channels) (out : list string) (r : row),
      (parse_signals_row decode (c, out) r).1 = c \/
      exists x y z : value,
        (parse_signals_row decode (c, out) r).1 = channels_app c (sample x y z)) /\
  (forall (signal_json : value) (c : channels) (e : exn),
      (try_body decode signal_json c).2 = Some e ->
      (try_body decode signal_json c).1 = c).
Proof.
  split; [|split].
  - induction data as [|r data [IH1 IH2]]; [done|].
    rewrite parse_signals_cons. cbn [fst].
    destruct (parse_signals_row_cases decode no_channels [] r)
      as [[lines Hrow]|(x & y & z & Hrow)]; rewrite Hrow; cbn;
      rewrite ?IH1, ?IH2; done.
  - intros c out r.
    destruct (parse_signals_row_cases decode c out r)
      as [[lines Hrow]|(x & y & z & Hrow)]; rewrite Hrow;
      [by left|right; by exists x, y, z].
  - intros signal_json c e. unfold try_body.
    destruct (signal_of decode signal_json) as [v|e']; [|done].
    destruct v; cbn; done.
Qed.

(** C10.  A row whose payload is absent, [None], the empty string or the
    empty dictionary is skipped by both functions: a turn of either loop
    on it changes nothing, so the results are those of the list without
    the row.  A row changes the lists or the records only when its payload
    is true in the sense of [if signal_json:]. *)
Theorem empty_payload_is_skipped (r : row) :
  (r !! "data" = None \/ r !! "data" = Some VNone \/
   r !! "data" = Some (VStr EmptyString) \/ r !! "data" = Some (VDict ∅) ->
   (forall (c : channels) (out : list string),
       parse_signals_row decode (c, out) r = (c, out)) /\
   (forall records : list row,
       parse_signals_to_dataframe_row decode records r = Ok records) /\
   (forall pre post : list row,
       parse_signals decode (pre ++ r :: post) = parse_signals decode (pre ++ post) /\
       parse_signals_to_dataframe decode DataFrame (pre ++ r :: post) =
         parse_signals_to_dataframe decode DataFrame (pre ++ post))) /\
  (forall (c : channels) (out : list string),
      (parse_signals_row decode (c, out) r).1 <> c ->
      truthy (dict_get r "data") = true) /\
  (forall records records' : list row,
      parse_signals_to_dataframe_row decode records r = Ok records' ->
      records' <> records ->
      truthy (dict_get r "data") = true).
Proof.
  split; [|split].
  - intros Hr.
    assert (Hf : truthy (dict_get r "data") = false).
    { unfold dict_get. by destruct Hr as [-> | [-> | [-> | ->]]]. }
    split; [|split].
    + intros c out. by apply parse_signals_row_skip.
    + intros records. by apply dataframe_row_skip.
    + intros pre post. split.
      * rewrite !parse_signals_app, parse_signals_cons.
        by rewrite (parse_signals_row_skip decode no_channels [] r Hf).
      * unfold parse_signals_to_dataframe.
        rewrite !dataframe_loop_app. cbn [parse_signals_to_dataframe_loop].
        destruct (parse_signals_to_dataframe_loop decode pre []) as [recs|e]; [|done].
        by rewrite (dataframe_row_skip decode recs r Hf).
  - intros c out Hc. destruct (truthy (dict_get r "data")) eqn:Ht; [done|].
    by rewrite (parse_signals_row_skip decode c out r Ht) in Hc.
  - intros records records' Hrow Hne.
    destruct (truthy (dict_get r "data")) eqn:Ht; [done|].
    rewrite (dataframe_row_skip decode records r Ht) in Hrow. congruence.
Qed.

(** C5, amended.  For a row whose payload is a string that is not empty
    and that fails to decode, with the exception [e]: [parse_signals]
    returns; the row adds nothing to the three lists and one line, the
    text of [e], to the output; the rows before it and after it add what
    they add without it.  [parse_signals_to_dataframe] raises on the same
    list, and what it raises is [e] when the rows before this one raise
    nothing. *)
Theorem malformed_payload_caught_or_raised
    (pre post : list row) (r : row) (s : string) (e : exn) :
  r !! "data" = Some (VStr s) ->
  s <> EmptyString ->
  decode s = Raise e ->
  parse_signals decode (pre ++ r :: post) =
    (channels_app (parse_signals decode pre).1 (parse_signals decode post).1,
     (parse_signals decode pre).2 ++ error_line e :: (parse_signals decode post).2) /\
  (parse_signals decode (pre ++ r :: post)).1 = (parse_signals decode (pre ++ post)).1 /\
  raises (parse_signals_to_dataframe decode DataFrame (pre ++ r :: post)) /\
  (returns (parse_signals_to_dataframe decode DataFrame pre) ->
   parse_signals_to_dataframe decode DataFrame (pre ++ r :: post) = Raise e).
Proof.
  intros Hr Hs He.
  assert (Hpay : dict_get r "data" = VStr s) by (unfold dict_get; by rewrite Hr).
  assert (Ht : truthy (dict_get r "data") = true)
    by (rewrite Hpay; by apply truthy_str).
  assert (Hsig : signal_of decode (dict_get r "data") = Raise e) by (by rewrite Hpay).
  assert (Hps : parse_signals decode (pre ++ r :: post) =
    (channels_app (parse_signals decode pre).1 (parse_signals decode post).1,
     (parse_signals decode pre).2 ++ error_line e :: (parse_signals decode post).2)).
  { rewrite parse_signals_app, parse_signals_cons.
    by rewrite (parse_signals_row_raise decode no_channels [] r e Ht Hsig). }
  split; [exact Hps|]. split; [|split].
  - rewrite Hps. by rewrite parse_signals_app.
  - unfold parse_signals_to_dataframe. rewrite dataframe_loop_app.
    destruct (parse_signals_to_dataframe_loop decode pre []) as [recs|e']; [|done].
    cbn [parse_signals_to_dataframe_loop].
    by rewrite (dataframe_row_raise decode recs r e Ht Hsig).
  - unfold parse_signals_to_dataframe. rewrite dataframe_loop_app.
    destruct (parse_signals_to_dataframe_loop decode pre []) as [recs|e']; [|done].
    intros _. cbn [parse_signals_to_dataframe_loop].
    by rewrite (dataframe_row_raise decode recs r e Ht Hsig).
Qed.

(** C8, amended.  When the payload of every retained row decodes to an
    object, [parse_signals] prints nothing and the two paths extract the
    same values: the records that [parse_signals_to_dataframe] builds, one
    for each retained row, in the order of the rows and with the timestamp
    of the row, hold as [x], [y] and [z] exactly the three lists of
    [parse_signals].  What [parse_signals_to_dataframe] returns is
    [pd.DataFrame] of these records: the frame holds these values as pandas
    stores them, and pandas may change the type of a column. *)
Theorem decode_paths_agree (data : list row) :
  (forall r : row, r ∈ data -> truthy (dict_get r "data") = true ->
     exists o : gmap string value, decodes_to decode (dict_get r "data") o) ->
  exists records : list row,
    parse_signals_to_dataframe_loop decode data [] = Ok records /\
    parse_signals_to_dataframe decode DataFrame data = DataFrame records /\
    (parse_signals decode data).2 = [] /\
    column "x" records = xs (parse_signals decode data).1 /\
    column "y" records = ys (parse_signals decode data).1 /\
    column "z" records = zs (parse_signals decode data).1 /\
    column "timestamp" records =
      (fun r : row => dict_get r "timestamp") <$> retained data /\
    Forall2 (fun (r rec : row) =>
               exists o : gmap string value,
                 decodes_to decode (dict_get r "data") o /\ rec = record_of o r)
            (retained data) records /\
    length (xs (parse_signals decode data).1) = length (retained data).
Proof.
  intros Hall.
  assert (Hmain : exists records : list row,
    parse_signals_to_dataframe_loop decode data [] = Ok records /\
    parse_signals decode data =
      ({| xs := column "x" records; ys := column "y" records;
          zs := column "z" records |}, []) /\
    column "timestamp" records =
      (fun r : row => dict_get r "timestamp") <$> retained data /\
    Forall2 (fun (r rec : row) =>
               exists o : gmap string value,
                 decodes_to decode (dict_get r "data") o /\ rec = record_of o r)
            (retained data) records).
  { induction data as [|r data IH].
    - exists []. by split_and!.
    - destruct IH as (records & Hloop & Hps & Hts & Hrel).
      { intros r' Hin. apply Hall. by right. }
      cbn [parse_signals_to_dataframe_loop]. rewrite parse_signals_cons, Hps.
      unfold retained. cbn [List.filter]. fold (retained data).
      destruct (truthy (dict_get r "data")) eqn:Ht.
      + destruct (Hall r) as [o Ho]; [left|done|].
        pose proof (decodes_to_signal_of decode _ _ Ho) as Hsig.
        rewrite (dataframe_row_object decode [] r o Ht Hsig).
        rewrite (parse_signals_row_object decode no_channels [] r o Ht Hsig).
        cbn. rewrite dataframe_loop_acc, Hloop.
        exists (record_of o r :: records). split; [done|].
        destruct (record_of_channels o r) as (Hx & Hy & Hz & Ht' & _).
        split_and!.
        * unfold column. cbn. by rewrite Hx, Hy, Hz.
        * unfold column in *. cbn. by rewrite Ht', Hts.
        * constructor; [by exists o|done].
      + rewrite (dataframe_row_skip decode [] r Ht).
        rewrite (parse_signals_row_skip decode no_channels [] r Ht).
        cbn. rewrite Hloop. exists records. split; [done|]. split; [|done].
        by destruct records. }
  destruct Hmain as (records & Hloop & Hps & Hts & Hrel).
  exists records. unfold parse_signals_to_dataframe. rewrite Hloop, Hps. cbn.
  split_and!; try done.
  unfold column. rewrite length_fmap. symmetry. by eapply Forall2_length.
Qed.

End DecodeClaims.

(* ================================================================= *)
(** ** The claims about the queries and about the script *)

Lemma fetch_accelerometer_data_execute
    (execute : supabase.query -> result (list row)) (date_str : string) :
  fetch_accelerometer_data execute date_str = execute (accelerometer_query date_str).
Proof. unfold fetch_accelerometer_data. by destruct (execute _). Qed.

Lemma fetch_gyroscope_data_execute
    (execute : supabase.query -> result (list row)) (date_str : string) :
  fetch_gyroscope_data execute date_str = execute (gyroscope_query date_str).
Proof. unfold fetch_gyroscope_data. by destruct (execute _). Qed.

(** The rows that the three filters of a fetch select, for a sensor
    [id] and the two bounds [lo] and [hi]. *)
Lemma selected_three_filters (cmp : string -> string -> comparison)
    (q : supabase.query) (id lo hi : string) (r : row) :
  supabase.q_filters q =
    [supabase.Filter "sensor_type_id" "eq" id;
     supabase.Filter "timestamp" "gte" lo;
     supabase.Filter "timestamp" "lt" hi] ->
  supabase.selected cmp q r = true <->
    r !! "sensor_type_id" = Some (VStr id) /\
    exists ts : string, r !! "timestamp" = Some (VStr ts) /\
      cmp ts lo <> Lt /\ cmp ts hi = Lt.
Proof.
  intros Hq. unfold supabase.selected. rewrite Hq. cbn [forallb].
  unfold supabase.holds. cbn.
  split.
  - intros H. apply andb_true_iff in H as [H1 H2].
    apply andb_true_iff in H2 as [H2 H3]. apply andb_true_iff in H3 as [H3 _].
    destruct (r !! "sensor_type_id") as [[| | | |s| |]|]; try discriminate.
    apply String.eqb_eq in H1 as ->. split; [done|].
    destruct (r !! "timestamp") as [[| | | |ts| |]|]; try discriminate.
    exists ts. split; [done|]. split.
    + intros Hlt. by rewrite Hlt in H2.
    + by destruct (cmp ts hi).
  - intros (Hid & ts & Hts & Hlo & Hhi). rewrite Hid, Hts, Hhi.
    rewrite String.eqb_refl. cbn. by destruct (cmp ts lo).
Qed.

(** C7.  For every date [D], each fetch sends exactly one query: on the
    table [sensor_data], with the filter [sensor_type_id = id] for the
    fixed identifier of its sensor, the filter [timestamp >= D T00:00:00],
    the filter [timestamp < D T23:59:59], and no limit.  Read against a
    table, the query answers every row of that sensor whose timestamp [ts]
    has [D T00:00:00 <= ts < D T23:59:59], and nothing is cut off. *)
Theorem fetch_queries_window (date_str : string) :
  (forall execute : supabase.query -> result (list row),
      fetch_accelerometer_data execute date_str =
        execute
          {| supabase.q_table := "sensor_data";
             supabase.q_columns := "*";
             supabase.q_filters :=
               [supabase.Filter "sensor_type_id" "eq" "3b48eed5-6ece-4eb8-8c88-b5e645839385";
                supabase.Filter "timestamp" "gte" (date_str ++ "T00:00:00")%string;
                supabase.Filter "timestamp" "lt" (date_str ++ "T23:59:59")%string];
             supabase.q_limit := None |} /\
      fetch_gyroscope_data execute date_str =
        execute
          {| supabase.q_table := "sensor_data";
             supabase.q_columns := "*";
             supabase.q_filters :=
               [supabase.Filter "sensor_type_id" "eq" "d4ad2653-b430-40c2-9f47-bdc140119c57";
                supabase.Filter "timestamp" "gte" (date_str ++ "T00:00:00")%string;
                supabase.Filter "timestamp" "lt" (date_str ++ "T23:59:59")%string];
             supabase.q_limit := None |}) /\
  (forall (cmp : string -> string -> comparison) (rows : list row) (r : row),
      (r ∈ supabase.answer cmp rows (accelerometer_query date_str) <->
         r ∈ rows /\
         r !! "sensor_type_id" = Some (VStr "3b48eed5-6ece-4eb8-8c88-b5e645839385") /\
         exists ts : string, r !! "timestamp" = Some (VStr ts) /\
           cmp ts (date_str ++ "T00:00:00")%string <> Lt /\
           cmp ts (date_str ++ "T23:59:59")%string = Lt) /\
      (r ∈ supabase.answer cmp rows (gyroscope_query date_str) <->
         r ∈ rows /\
         r !! "sensor_type_id" = Some (VStr "d4ad2653-b430-40c2-9f47-bdc140119c57") /\
         exists ts : string, r !! "timestamp" = Some (VStr ts) /\
           cmp ts (date_str ++ "T00:00:00")%string <> Lt /\
           cmp ts (date_str ++ "T23:59:59")%string = Lt)).
Proof.
  split.
  - intros execute.
    by rewrite fetch_accelerometer_data_execute, fetch_gyroscope_data_execute.
  - intros cmp rows r. split.
    + change (supabase.answer cmp rows (accelerometer_query date_str))
        with (List.filter (supabase.selected cmp (accelerometer_query date_str)) rows).
      rewrite !list_elem_of_In, filter_In.
      by rewrite (selected_three_filters cmp (accelerometer_query date_str)
                    accelerometer_id (date_str ++ "T00:00:00")%string
                    (date_str ++ "T23:59:59")%string r eq_refl).
    + change (supabase.answer cmp rows (gyroscope_query date_str))
        with (List.filter (supabase.selected cmp (gyroscope_query date_str)) rows).
      rewrite !list_elem_of_In, filter_In.
      by rewrite (selected_three_filters cmp (gyroscope_query date_str)
                    gyroscope_id (date_str ++ "T00:00:00")%string
                    (date_str ++ "T23:59:59")%string r eq_refl).
Qed.

(** C4.  When both queries answer and one of the two answers is empty,
    the script prints one line and exits with the code 0 before any chart
    is saved: with no accelerometer row, whatever the gyroscope rows are;
    with accelerometer rows and no gyroscope row as well. *)
Theorem no_data_exits_before_any_chart
    (execute : supabase.query -> result (list row))
    (decode : string -> result value)
    (DataFrame : list row -> result (list row))
    (plt_plot : list value -> result unit)
    (date : string) (w : world) (accel_data gyro_data : list row) :
  execute (accelerometer_query date) = Ok accel_data ->
  execute (gyroscope_query date) = Ok gyro_data ->
  (accel_data = [] ->
   main execute decode DataFrame plt_plot date w =
     (SystemExit 0, print "No data found for the given date." w)) /\
  (accel_data <> [] -> gyro_data = [] ->
   main execute decode DataFrame plt_plot date w =
     (SystemExit 0, print "No gyroscope data found for the given date." w)) /\
  (accel_data = [] \/ gyro_data = [] ->
   exit_code (main execute decode DataFrame plt_plot date w).1 = 0%Z /\
   files (main execute decode DataFrame plt_plot date w).2 = files w /\
   length (stdout (main execute decode DataFrame plt_plot date w).2) = S (length (stdout w))).
Proof.
  intros Ha Hg.
  assert (H1 : accel_data = [] ->
    main execute decode DataFrame plt_plot date w =
      (SystemExit 0, print "No data found for the given date." w)).
  { intros ->. unfold main.
    by rewrite fetch_accelerometer_data_execute, Ha, fetch_gyroscope_data_execute, Hg. }
  assert (H2 : accel_data <> [] -> gyro_data = [] ->
    main execute decode DataFrame plt_plot date w =
      (SystemExit 0, print "No gyroscope data found for the given date." w)).
  { intros Hne ->. unfold main.
    rewrite fetch_accelerometer_data_execute, Ha, fetch_gyroscope_data_execute, Hg.
    by destruct accel_data. }
  split; [exact H1|]. split; [exact H2|].
  intros Hor.
  destruct accel_data as [|a accel_data].
  - rewrite H1 by done. cbn. by rewrite length_app, Nat.add_1_r.
  - destruct Hor as [?|Hgy]; [done|].
    rewrite H2 by done. cbn. by rewrite length_app, Nat.add_1_r.
Qed.

(* ================================================================= *)
(** * Properties of the importer *)

Import events_importer.

(** The loop of lines 35 to 37 changes a value in place and leaves the
    keys as they are. *)
Lemma replace_fold_lookup (b m : gmap string pd.cell) (k : string) :
  map_fold
    (fun (k : string) (v : pd.cell) (d : gmap string pd.cell) =>
       if is_nan_or_infinite v then <[k := pd.CNone]> d else d) b m !! k =
  match m !! k with
  | Some v => if is_nan_or_infinite v then Some pd.CNone else b !! k
  | None => b !! k
  end.
Proof.
  revert k. apply (map_fold_weak_ind (fun (res m : gmap string pd.cell) =>
    forall k, res !! k = match m !! k with
                         | Some v => if is_nan_or_infinite v then Some pd.CNone else b !! k
                         | None => b !! k
                         end)).
  - intros k. by rewrite lookup_empty.
  - intros i x m' res Hi IH k. destruct (decide (i = k)) as [->|Hne].
    + rewrite lookup_insert_eq. destruct (is_nan_or_infinite x) eqn:Hx.
      * by rewrite lookup_insert_eq.
      * by rewrite IH, Hi.
    + rewrite (lookup_insert_ne m') by done.
      destruct (is_nan_or_infinite x); [rewrite lookup_insert_ne by done|]; apply IH.
Qed.

Lemma replace_nan_or_infinite_lookup (event_data : gmap string pd.cell) (k : string) :
  replace_nan_or_infinite event_data !! k =
    (fun v => if is_nan_or_infinite v then pd.CNone else v) <$> event_data !! k.
Proof.
  unfold replace_nan_or_infinite. rewrite replace_fold_lookup.
  destruct (event_data !! k) as [v|] eqn:Hk; cbn; [|done].
  by destruct (is_nan_or_infinite v).
Qed.

Lemma replace_nan_or_infinite_dom (event_data : gmap string pd.cell) :
  dom (replace_nan_or_infinite event_data) = dom event_data.
Proof.
  apply set_eq. intros k. rewrite !elem_of_dom, replace_nan_or_infinite_lookup.
  by rewrite fmap_is_Some.
Qed.

(** What the test of line 36 does to one value. *)
Lemma replaced_value (v : pd.cell) :
  (is_nan v \/ is_infinite v -> is_nan_or_infinite v = true) /\
  (is_nan_or_infinite v = true -> is_nan v \/ is_infinite v \/
     v = pd.CNone \/ v = pd.CNA \/ v = pd.CNaT) /\
  ~ is_nan (if is_nan_or_infinite v then pd.CNone else v) /\
  ~ is_infinite (if is_nan_or_infinite v then pd.CNone else v).
Proof.
  unfold is_nan, is_infinite.
  destruct v as [| | |b|n|f|s|t]; cbn;
    try (split_and!; intuition (auto; congruence)).
  destruct f as [sg|sg| |sg m e]; cbn; try destruct sg; cbn;
    split_and!; intuition (auto; congruence).
Qed.

(** The record of a line that has the six columns. *)
Lemma event_data_of_fields (r event_data : gmap string pd.cell) :
  event_data_of r = Ok event_data ->
  dom event_data =
    ({["e_ind"; "e_description_engl"; "e_description_slo"; "e_id";
       "e_description_butt"; "notes"]} : gset string) /\
  forall field col : string, (field, col) ∈ field_columns ->
    exists v : pd.cell, r !! col = Some v /\ event_data !! field = Some v.
Proof.
  unfold event_data_of, pd.series_getitem.
  destruct (r !! "eInd") as [v1|] eqn:H1; [|done].
  destruct (r !! "eDescriptionENGL") as [v2|] eqn:H2; [|done].
  destruct (r !! "eDescriptionSLO") as [v3|] eqn:H3; [|done].
  destruct (r !! "eID") as [v4|] eqn:H4; [|done].
  destruct (r !! "eDescriptionButt") as [v5|] eqn:H5; [|done].
  destruct (r !! "Notes") as [v6|] eqn:H6; [|done].
  cbn. intros [= <-]. split.
  - rewrite !dom_insert_L, dom_empty_L. set_solver.
  - intros field col Hin. unfold field_columns in Hin.
    repeat (apply elem_of_cons in Hin as [[= -> ->]|Hin];
            [eexists; split; [eassumption|by simplify_map_eq]|]).
    by apply elem_of_nil in Hin.
Qed.

Section ImportLoop.
Context {Remote : Type}.
Variable execute : supabase.insert_request -> Remote -> result unit * Remote.

(** One turn of the loop for a line that has its request. *)
Lemma import_row_request (r : gmap string pd.cell) (request : supabase.insert_request)
    (w : world Remote) :
  request_of r request ->
  import_row execute r w =
    ((execute request (remote w)).1,
     {| calls := calls w ++ [request]; remote := (execute request (remote w)).2 |}).
Proof.
  intros (event_data & Hed & ->). unfold import_row. rewrite Hed.
  unfold insert_of, supabase.insert, supabase.table.
  by destruct (execute _ (remote w)).
Qed.

(** A turn of the loop that raises nothing has sent the request of its
    line, and the request succeeded. *)
Lemma import_row_ok (r : gmap string pd.cell) (w w' : world Remote) :
  import_row execute r w = (Ok (), w') ->
  exists request : supabase.insert_request,
    request_of r request /\
    execute request (remote w) = (Ok (), remote w') /\
    calls w' = calls w ++ [request].
Proof.
  unfold import_row. destruct (event_data_of r) as [event_data|e] eqn:Hed; [|done].
  destruct (execute _ (remote w)) as [resp rm'] eqn:Hex. intros [= -> <-].
  eexists. split; [by exists event_data|]. by split.
Qed.

Lemma import_rows_app (rows1 rows2 : list (gmap string pd.cell)) (w : world Remote) :
  import_rows execute (rows1 ++ rows2) w =
    match import_rows execute rows1 w with
    | (Ok _, w') => import_rows execute rows2 w'
    | (Raise e, w') => (Raise e, w')
    end.
Proof.
  revert w. induction rows1 as [|r rows1 IH]; intros w; cbn; [done|].
  destruct (import_row execute r w) as [[[]|e] w']; [apply IH|done].
Qed.

(** A loop that raises nothing has sent one request for each line, in
    the order of the lines. *)
Lemma import_rows_ok (rows : list (gmap string pd.cell)) (w w' : world Remote) :
  import_rows execute rows w = (Ok (), w') ->
  exists issued : list supabase.insert_request,
    calls w' = calls w ++ issued /\ Forall2 request_of rows issued.
Proof.
  revert w. induction rows as [|r rows IH]; intros w; cbn.
  - intros [= <-]. exists []. by rewrite app_nil_r.
  - destruct (import_row execute r w) as [[[]|e] w1] eqn:Hrow; [|done].
    intros Hrest. destruct (import_row_ok r w w1 Hrow) as (request & Hreq & _ & Hcalls).
    destruct (IH w1 Hrest) as (issued & Hissued & Hall).
    exists (request :: issued). split.
    + by rewrite Hissued, Hcalls, <- app_assoc.
    + by constructor.
Qed.

(** When the inserts all succeed, the loop raises nothing. *)
Lemma import_rows_succeed (rows : list (gmap string pd.cell)) (w : world Remote) :
  inserts_succeed execute rows (remote w) ->
  exists w' : world Remote, import_rows execute rows w = (Ok (), w').
Proof.
  revert w. induction rows as [|r rows IH]; intros w; cbn.
  - intros _. by exists w.
  - intros (request & rm' & Hreq & Hex & Hrest).
    rewrite (import_row_request r request w Hreq), Hex. cbn.
    apply (IH {| calls := calls w ++ [request]; remote := rm' |}). exact Hrest.
Qed.

End ImportLoop.

(* ================================================================= *)
(** ** The claims about the importer *)

Section ImportClaims.
Context {Remote : Type}.
Variable execute : supabase.insert_request -> Remote -> result unit * Remote.
Variable read_excel : string -> result (list (gmap string pd.cell)).

(** C1.  For a line of the sheet, the record that the insert call carries
    has the six fields; a field whose value in the sheet is NaN, plus
    infinity or minus infinity is [None] in it; no field of it is NaN or
    infinite; and a value that is neither NaN nor infinite (nor one of the
    two other missing-value marks of pandas, [pd.NA] and [pd.NaT]) is in
    it as it is in the sheet. *)
Theorem submitted_record_has_no_nan_or_infinite
    (r event_data : gmap string pd.cell) (w : world Remote) :
  event_data_of r = Ok event_data ->
  calls (import_row execute r w).2 =
    calls w ++ [ {| supabase.i_table := "event_codes";
                    supabase.i_record := replace_nan_or_infinite event_data |} ] /\
  dom (replace_nan_or_infinite event_data) =
    ({["e_ind"; "e_description_engl"; "e_description_slo"; "e_id";
       "e_description_butt"; "notes"]} : gset string) /\
  forall field col : string, (field, col) ∈ field_columns ->
    exists v v' : pd.cell,
      r !! col = Some v /\
      replace_nan_or_infinite event_data !! field = Some v' /\
      (is_nan v \/ is_infinite v -> v' = pd.CNone) /\
      ~ is_nan v' /\ ~ is_infinite v' /\
      (~ is_nan v -> ~ is_infinite v -> v <> pd.CNA -> v <> pd.CNaT -> v' = v).
Proof.
  intros Hed. destruct (event_data_of_fields r event_data Hed) as [Hdom Hfields].
  split; [|split].
  - rewrite (import_row_request execute r
               {| supabase.i_table := "event_codes";
                  supabase.i_record := replace_nan_or_infinite event_data |} w);
      [done|]. by exists event_data.
  - by rewrite replace_nan_or_infinite_dom.
  - intros field col Hin. destruct (Hfields field col Hin) as (v & Hcol & Hfield).
    exists v, (if is_nan_or_infinite v then pd.CNone else v).
    destruct (replaced_value v) as (Hbad & Hinv & Hnan & Hinf).
    split_and!; try done.
    + by rewrite replace_nan_or_infinite_lookup, Hfield.
    + intros Hv. by rewrite (Hbad Hv).
    + intros Hn Hi Hna Hnat.
      destruct (is_nan_or_infinite v) eqn:Hb; [|done].
      destruct (Hinv eq_refl) as [?|[?|[->|[?|?]]]]; done.
Qed.

(** C2.  When the inserts of the [N] lines of the sheet all succeed, the
    script raises nothing and has sent exactly [N] insert calls: the call
    number [i] is the insert, on the table [event_codes], of the one record
    of the line number [i]. *)
Theorem one_insert_per_row_in_order
    (xlsx_path : string) (rows : list (gmap string pd.cell)) (w : world Remote) :
  read_excel xlsx_path = Ok rows ->
  inserts_succeed execute rows (remote w) ->
  exists (w' : world Remote) (issued : list supabase.insert_request),
    events_importer.main execute read_excel xlsx_path w = (Ok (), w') /\
    calls w' = calls w ++ issued /\
    length issued = length rows /\
    Forall2 request_of rows issued.
Proof.
  intros Hread Hall. unfold events_importer.main. rewrite Hread.
  destruct (import_rows_succeed execute rows w Hall) as [w' Hrun].
  destruct (import_rows_ok execute rows w w' Hrun) as (issued & Hcalls & Hreq).
  exists w', issued. split_and!; try done.
  symmetry. by eapply Forall2_length.
Qed.

(** C6.  When the inserts of the lines before the line number [k] have
    succeeded and the insert of the line number [k] raises [e], the script
    ends with [e], which nothing catches; it has sent [k] insert calls, one
    for each line up to this one, and none for a line after it; and the
    service is left as the failed call left it, after the inserts of the
    lines before: no call undoes them. *)
Theorem failed_insert_stops_the_import
    (xlsx_path : string) (pre post : list (gmap string pd.cell))
    (r : gmap string pd.cell) (w w1 : world Remote)
    (request : supabase.insert_request) (e : exn) (rm2 : Remote) :
  read_excel xlsx_path = Ok (pre ++ r :: post) ->
  import_rows execute pre w = (Ok (), w1) ->
  request_of r request ->
  execute request (remote w1) = (Raise e, rm2) ->
  events_importer.main execute read_excel xlsx_path w =
    (Raise e, {| calls := calls w1 ++ [request]; remote := rm2 |}) /\
  exists issued : list supabase.insert_request,
    calls w1 = calls w ++ issued /\
    Forall2 request_of pre issued /\
    length (issued ++ [request]) = S (length pre) /\
    inserts_succeed execute pre (remote w).
Proof.
  intros Hread Hpre Hreq Hex. split.
  - unfold events_importer.main. rewrite Hread, import_rows_app, Hpre.
    cbn [import_rows]. by rewrite (import_row_request execute r request w1 Hreq), Hex.
  - destruct (import_rows_ok execute pre w w1 Hpre) as (issued & Hcalls & Hall).
    exists issued. split_and!; try done.
    + rewrite length_app. cbn. rewrite Nat.add_1_r. f_equal.
      symmetry. by eapply Forall2_length.
    + clear Hread Hex Hcalls Hall issued. revert w Hpre.
      induction pre as [|r0 pre IH]; intros w Hpre; [done|].
      cbn in Hpre. destruct (import_row execute r0 w) as [[[]|e0] w0] eqn:Hrow; [|done].
      destruct (import_row_ok execute r0 w w0 Hrow) as (req0 & Hreq0 & Hex0 & _).
      cbn. exists req0, (remote w0). split_and!; try done. by apply IH.
Qed.

End ImportClaims.

(* ================================================================= *)
(** * The statements at sample inputs *)

Import examples.

(** C3 at the payload [{"x":1,"y":2,"z":3}], as a string and as a
    dictionary, and at a string without [z]. *)
Lemma parse_signals_decodes_triple_witness :
  parse_signals json.decode [reading (VStr xyz_text)] =
    (sample (VInt 1) (VInt 2) (VInt 3), []) /\
  parse_signals json.decode [reading (VDict xyz_object)] =
    (sample (VInt 1) (VInt 2) (VInt 3), []) /\
  parse_signals json.decode [reading (VStr xy_text)] =
    (sample (VInt 4) (VInt 5) (VInt 0), []).
Proof.
  assert (Hxyz : decodes_to json.decode (VStr xyz_text) xyz_object).
  { right. exists xyz_text. split; [reflexivity|]. vm_compute. reflexivity. }
  assert (Hxy : decodes_to json.decode (VStr xy_text) xy_object).
  { right. exists xy_text. split; [reflexivity|]. vm_compute. reflexivity. }
  split; [|split].
  - apply (proj1 (parse_signals_decodes_triple json.decode I
             (reading (VStr xyz_text)) (VStr xyz_text) xyz_object eq_refl Hxyz));
      reflexivity.
  - apply (proj1 (parse_signals_decodes_triple json.decode I
             (reading (VDict xyz_object)) (VDict xyz_object) xyz_object eq_refl
             (or_introl eq_refl))); reflexivity.
  - apply (proj1 (proj2 (parse_signals_decodes_triple json.decode I
             (reading (VStr xy_text)) (VStr xy_text) xy_object eq_refl Hxy)));
      reflexivity.
Defined.

(** C4 with no row at all, and with accelerometer rows only. *)
Lemma no_data_exits_before_any_chart_witness :
  signal_fetcher.main execute_nothing json.decode pd.DataFrame plot_anything "2024-05-01" empty_world =
    (SystemExit 0, print "No data found for the given date." empty_world) /\
  signal_fetcher.main execute_accelerometer_only json.decode pd.DataFrame plot_anything
      "2024-05-01" empty_world =
    (SystemExit 0, print "No gyroscope data found for the given date." empty_world).
Proof.
  split.
  - apply (proj1 (no_data_exits_before_any_chart execute_nothing json.decode
             pd.DataFrame plot_anything "2024-05-01" empty_world [] [] eq_refl eq_refl)).
    reflexivity.
  - apply (proj1 (proj2 (no_data_exits_before_any_chart execute_accelerometer_only
             json.decode pd.DataFrame plot_anything "2024-05-01" empty_world
             [reading (VStr xyz_text)] [] eq_refl eq_refl))).
    + discriminate.
    + reflexivity.
Defined.

(** C5 as worded fails at the empty string: it does not decode, yet no
    line is printed and the frame is built. *)
Lemma malformed_payload_claim_fails_on_empty_string :
  raises (json.decode EmptyString) /\
  parse_signals json.decode [reading (VStr EmptyString)] = (no_channels, []) /\
  parse_signals_to_dataframe json.decode pd.DataFrame [reading (VStr EmptyString)] = Ok [] /\
  ~ malformed_payload_claim json.decode pd.DataFrame.
Proof.
  split; [exact I|]. split; [reflexivity|]. split; [reflexivity|].
  intros Hclaim.
  destruct (Hclaim [reading (VStr EmptyString)] (reading (VStr EmptyString))
              EmptyString (Exn JSONDecodeError "Expecting value")) as [_ Hraise].
  - left.
  - reflexivity.
  - reflexivity.
  - exact Hraise.
Qed.

(** C5, amended, at a list of three rows whose second payload is not
    JSON. *)
Lemma malformed_payload_caught_or_raised_witness :
  parse_signals json.decode
    [reading (VStr xyz_text); reading (VStr "not json"); reading (VStr xy_text)] =
    ({| xs := [VInt 1; VInt 4]; ys := [VInt 2; VInt 5]; zs := [VInt 3; VInt 0] |},
     ["Error parsing signal: Expecting value"%string]) /\
  parse_signals_to_dataframe json.decode pd.DataFrame
    [reading (VStr xyz_text); reading (VStr "not json"); reading (VStr xy_text)] =
    Raise (Exn JSONDecodeError "Expecting value").
Proof.
  pose proof (malformed_payload_caught_or_raised json.decode pd.DataFrame
                [reading (VStr xyz_text)] [reading (VStr xy_text)]
                (reading (VStr "not json")) "not json"
                (Exn JSONDecodeError "Expecting value")
                eq_refl ltac:(discriminate) eq_refl) as (Hps & _ & _ & Hdf).
  split.
  - etransitivity; [exact Hps|]. vm_compute. reflexivity.
  - apply Hdf. vm_compute. exact I.
Defined.

(** C8 as worded fails twice.  At a payload that decodes to a number
    nothing fails in the decoding, yet [parse_signals] skips the row and
    [parse_signals_to_dataframe] raises.  At the payloads [{"x":null}] and
    [{"x":1}] both functions return, the list of [parse_signals] holds
    [None] and the integer 1, and the column of the frame holds NaN and the
    float 1.0. *)
Lemma decode_paths_claim_fails :
  json.decode "5" = Ok (VInt 5) /\
  parse_signals json.decode [reading (VStr "5")] =
    (no_channels, ["Error parsing signal: 'int' object has no attribute 'get'"%string]) /\
  parse_signals_to_dataframe json.decode pd.DataFrame [reading (VStr "5")] =
    Raise (Exn AttributeError "'int' object has no attribute 'get'") /\
  xs (parse_signals json.decode
        [reading (VStr x_null_text); reading (VStr x_one_text)]).1 =
    [VNone; VInt 1] /\
  match parse_signals_to_dataframe json.decode pd.DataFrame
          [reading (VStr x_null_text); reading (VStr x_one_text)] with
  | Ok df =>
      column "x" df =
        [VFloat S754_nan; VFloat (S754_finite false 4503599627370496 (-52))]
  | Raise _ => False
  end /\
  ~ decode_paths_claim json.decode pd.DataFrame.
Proof.
  split; [vm_compute; reflexivity|]. split; [vm_compute; reflexivity|].
  split; [vm_compute; reflexivity|]. split; [vm_compute; reflexivity|].
  split; [vm_compute; reflexivity|].
  intros Hclaim. destruct (Hclaim [reading (VStr "5")]) as (df & Hdf & _).
  - intros r Hin _. apply list_elem_of_singleton in Hin as ->. vm_compute. exact I.
  - vm_compute in Hdf. discriminate.
Qed.

(** C8, amended, at a list whose payloads are a string, a dictionary and
    an empty string. *)
Lemma decode_paths_agree_witness :
  exists records : list row,
    parse_signals_to_dataframe_loop json.decode
      [reading (VStr xyz_text); reading (VDict xy_object); reading (VStr EmptyString)] []
      = Ok records /\
    parse_signals_to_dataframe json.decode pd.DataFrame
      [reading (VStr xyz_text); reading (VDict xy_object); reading (VStr EmptyString)]
      = pd.DataFrame records /\
    column "x" records = [VInt 1; VInt 4] /\
    column "y" records = [VInt 2; VInt 5] /\
    column "z" records = [VInt 3; VInt 0] /\
    length records = 2.
Proof.
  destruct (decode_paths_agree json.decode pd.DataFrame
              [reading (VStr xyz_text); reading (VDict xy_object); reading (VStr EmptyString)])
    as (records & Hloop & Hdf & _ & Hx & Hy & Hz & _ & Hrel & _).
  - intros r Hin Ht.
    apply elem_of_cons in Hin as [->|Hin];
      [exists xyz_object; right; exists xyz_text; split; [reflexivity|vm_compute; reflexivity]|].
    apply elem_of_cons in Hin as [->|Hin]; [exists xy_object; by left|].
    apply list_elem_of_singleton in Hin as ->. vm_compute in Ht. discriminate.
  - exists records. split; [exact Hloop|]. split; [exact Hdf|].
    rewrite Hx, Hy, Hz. split_and!; try (vm_compute; reflexivity).
    apply Forall2_length in Hrel. rewrite <- Hrel. vm_compute. reflexivity.
Defined.

(** C10 at the four payloads that are skipped. *)
Lemma empty_payload_is_skipped_witness :
  (parse_signals json.decode
     [reading (VStr xyz_text); reading (VStr EmptyString); reading (VStr xy_text)] =
   parse_signals json.decode [reading (VStr xyz_text); reading (VStr xy_text)] /\
   parse_signals_to_dataframe json.decode pd.DataFrame
     [reading (VStr xyz_text); reading (VStr EmptyString); reading (VStr xy_text)] =
   parse_signals_to_dataframe json.decode pd.DataFrame
     [reading (VStr xyz_text); reading (VStr xy_text)]) /\
  parse_signals_to_dataframe_row json.decode [] (reading (VDict ∅)) = Ok [] /\
  parse_signals_to_dataframe_row json.decode [] (reading VNone) = Ok [] /\
  parse_signals_to_dataframe_row json.decode [] reading_without_data = Ok [].
Proof.
  split; [|split_and!].
  - exact (proj2 (proj2 (proj1
      (empty_payload_is_skipped json.decode pd.DataFrame (reading (VStr EmptyString)))
      (or_intror (or_intror (or_introl eq_refl)))))
      [reading (VStr xyz_text)] [reading (VStr xy_text)]).
  - exact (proj1 (proj2 (proj1
      (empty_payload_is_skipped json.decode pd.DataFrame (reading (VDict ∅)))
      (or_intror (or_intror (or_intror eq_refl))))) []).
  - exact (proj1 (proj2 (proj1
      (empty_payload_is_skipped json.decode pd.DataFrame (reading VNone))
      (or_intror (or_introl eq_refl)))) []).
  - exact (proj1 (proj2 (proj1
      (empty_payload_is_skipped json.decode pd.DataFrame reading_without_data)
      (or_introl eq_refl))) []).
Defined.

(** C1 at a line whose identifier is minus infinity and whose note is
    NaN. *)
Lemma submitted_record_has_no_nan_or_infinite_witness :
  exists event_data : gmap string pd.cell,
    event_data_of (sheet_line (pd.CInt 2) (pd.CFloat (S754_infinity true))
                              (pd.CFloat S754_nan)) = Ok event_data /\
    replace_nan_or_infinite event_data !! "notes" = Some pd.CNone /\
    replace_nan_or_infinite event_data !! "e_id" = Some pd.CNone /\
    replace_nan_or_infinite event_data !! "e_ind" = Some (pd.CInt 2) /\
    length (calls (import_row (table_execute accept_all)
                     (sheet_line (pd.CInt 2) (pd.CFloat (S754_infinity true))
                                 (pd.CFloat S754_nan)) empty_table).2) = 1.
Proof.
  destruct (event_data_of (sheet_line (pd.CInt 2) (pd.CFloat (S754_infinity true))
                                      (pd.CFloat S754_nan)))
    as [event_data|e] eqn:Hed; [|vm_compute in Hed; discriminate].
  exists event_data. split; [reflexivity|].
  destruct (submitted_record_has_no_nan_or_infinite (table_execute accept_all)
              _ event_data empty_table Hed) as (Hcalls & _ & Hfields).
  split_and!.
  - destruct (Hfields "notes" "Notes") as (v & v' & Hcol & Hrec & Hbad & _);
      [apply list_elem_of_In; cbn; auto 10|].
    vm_compute in Hcol. injection Hcol as <-.
    rewrite Hrec. f_equal. apply Hbad. by left.
  - destruct (Hfields "e_id" "eID") as (v & v' & Hcol & Hrec & Hbad & _);
      [apply list_elem_of_In; cbn; auto 10|].
    vm_compute in Hcol. injection Hcol as <-.
    rewrite Hrec. f_equal. apply Hbad. right. by right.
  - destruct (Hfields "e_ind" "eInd") as (v & v' & Hcol & Hrec & _ & _ & _ & Hkeep);
      [apply list_elem_of_In; cbn; auto 10|].
    vm_compute in Hcol. injection Hcol as <-.
    rewrite Hrec. f_equal. apply Hkeep; unfold is_nan, is_infinite;
      intuition discriminate.
  - rewrite Hcalls. reflexivity.
Defined.

(** C2 at the sheet of three lines whose second note is NaN: three
    calls, and the table holds three records. *)
Lemma one_insert_per_row_in_order_witness :
  exists w' : world (list (gmap string pd.cell)),
    events_importer.main (table_execute accept_all) (fun _ => Ok sheet_nan_note)
      "events.xlsx" empty_table = (Ok (), w') /\
    length (calls w') = 3 /\
    length (remote w') = 3 /\
    ((fun record : gmap string pd.cell => record !! "notes") <$> remote w') =
      [Some (pd.CStr "first"); Some pd.CNone; Some (pd.CStr "third")] /\
    ((fun record : gmap string pd.cell => record !! "e_id") <$> remote w') =
      [Some (pd.CStr "E1"); Some (pd.CStr "E2"); Some (pd.CStr "E3")].
Proof.
  destruct (one_insert_per_row_in_order (table_execute accept_all)
              (fun _ => Ok sheet_nan_note) "events.xlsx" sheet_nan_note empty_table
              eq_refl)
    as (w' & issued & Hmain & Hcalls & Hlen & _).
  - cbn. repeat (do 2 eexists; split;
                   [unfold request_of; eexists; split; reflexivity|];
                 split; [reflexivity|]). exact I.
  - exists w'. split; [exact Hmain|].
    assert (Hw : (events_importer.main (table_execute accept_all)
                    (fun _ => Ok sheet_nan_note) "events.xlsx" empty_table).2 = w')
      by (by rewrite Hmain).
    split; [rewrite Hcalls; exact Hlen|].
    rewrite <- Hw. split_and!; vm_compute; reflexivity.
Defined.

(** C6 at the sheet of three lines whose second identifier is NaN,
    against a table that refuses a null identifier: two calls, and the
    table holds the record of the first line only. *)
Lemma failed_insert_stops_the_import_witness :
  exists w' : world (list (gmap string pd.cell)),
    events_importer.main (table_execute e_id_not_null) (fun _ => Ok sheet_nan_id)
      "events.xlsx" empty_table = (Raise (Exn APIError "insert refused"), w') /\
    length (calls w') = 2 /\
    ((fun record : gmap string pd.cell => record !! "e_id") <$> remote w') =
      [Some (pd.CStr "E1")].
Proof.
  destruct (failed_insert_stops_the_import (table_execute e_id_not_null)
              (fun _ => Ok sheet_nan_id) "events.xlsx"
              [sheet_line (pd.CInt 1) (pd.CStr "E1") (pd.CStr "first")]
              [sheet_line (pd.CInt 3) (pd.CStr "E3") (pd.CStr "third")]
              (sheet_line (pd.CInt 2) (pd.CFloat S754_nan) (pd.CStr "second"))
              empty_table
              (import_rows (table_execute e_id_not_null)
                 [sheet_line (pd.CInt 1) (pd.CStr "E1") (pd.CStr "first")] empty_table).2
              {| supabase.i_table := "event_codes";
                 supabase.i_record :=
                   replace_nan_or_infinite
                     (event_data_line (pd.CInt 2) (pd.CFloat S754_nan) (pd.CStr "second")) |}
              (Exn APIError "insert refused")
              (remote (import_rows (table_execute e_id_not_null)
                 [sheet_line (pd.CInt 1) (pd.CStr "E1") (pd.CStr "first")] empty_table).2))
    as (Hmain & issued & Hcalls & _ & Hlen & _).
  - reflexivity.
  - vm_compute. reflexivity.
  - exists (event_data_line (pd.CInt 2) (pd.CFloat S754_nan) (pd.CStr "second")).
    split; reflexivity.
  - vm_compute. reflexivity.
  - eexists. split; [exact Hmain|]. split.
    + cbn [calls]. rewrite Hcalls. cbn [calls empty_table app]. exact Hlen.
    + vm_compute. reflexivity.
Defined.

(** C9 at a list with a payload that is not JSON and one that decodes
    to a number. *)
Lemma parse_signals_equal_lengths_witness :
  length (xs (parse_signals json.decode
                [reading (VStr "not json"); reading (VStr xyz_text); reading (VStr "5")]).1) = 1 /\
  length (zs (parse_signals json.decode
                [reading (VStr "not json"); reading (VStr xyz_text); reading (VStr "5")]).1) = 1 /\
  (try_body json.decode (VStr "5") (sample (VInt 1) (VInt 2) (VInt 3))).1 =
    sample (VInt 1) (VInt 2) (VInt 3).
Proof.
  destruct (parse_signals_equal_lengths json.decode
              [reading (VStr "not json"); reading (VStr xyz_text); reading (VStr "5")])
    as ((Hxy & Hyz) & _ & Htry).
  split_and!.
  - rewrite Hxy. vm_compute. reflexivity.
  - rewrite <- Hyz. vm_compute. reflexivity.
  - apply (Htry (VStr "5") (sample (VInt 1) (VInt 2) (VInt 3))
             (Exn AttributeError "'int' object has no attribute 'get'")).
    vm_compute. reflexivity.
Defined.

(** C7 at the date 2024-05-01 and a table of three rows, with the order
    of the texts: the row at midnight is answered, the row at 23:59:59 is
    not. *)
Lemma fetch_queries_window_witness :
  sensor_row accelerometer_id "2024-05-01T00:00:00" ∈
    supabase.answer String.compare
      [sensor_row accelerometer_id "2024-05-01T00:00:00";
       sensor_row accelerometer_id "2024-05-01T23:59:59";
       sensor_row gyroscope_id "2024-05-01T12:00:00"]
      (accelerometer_query "2024-05-01") /\
  ~ (sensor_row accelerometer_id "2024-05-01T23:59:59" ∈
       supabase.answer String.compare
         [sensor_row accelerometer_id "2024-05-01T00:00:00";
          sensor_row accelerometer_id "2024-05-01T23:59:59";
          sensor_row gyroscope_id "2024-05-01T12:00:00"]
         (accelerometer_query "2024-05-01")) /\
  sensor_row gyroscope_id "2024-05-01T12:00:00" ∈
    supabase.answer String.compare
      [sensor_row accelerometer_id "2024-05-01T00:00:00";
       sensor_row accelerometer_id "2024-05-01T23:59:59";
       sensor_row gyroscope_id "2024-05-01T12:00:00"]
      (gyroscope_query "2024-05-01").
Proof.
  pose proof (proj2 (fetch_queries_window "2024-05-01") String.compare
    [sensor_row accelerometer_id "2024-05-01T00:00:00";
     sensor_row accelerometer_id "2024-05-01T23:59:59";
     sensor_row gyroscope_id "2024-05-01T12:00:00"]) as Hwin.
  split_and!.
  - apply (proj1 (Hwin _)). split_and!.
    + left.
    + reflexivity.
    + exists "2024-05-01T00:00:00". split_and!; [reflexivity|discriminate|reflexivity].
  - intros Hin. apply (proj1 (Hwin _)) in Hin as (_ & _ & ts & Hts & _ & Hhi).
    vm_compute in Hts. injection Hts as <-. vm_compute in Hhi. discriminate.
  - apply (proj2 (Hwin _)). split_and!.
    + right. right. left.
    + reflexivity.
    + exists "2024-05-01T12:00:00". split_and!; [reflexivity|discriminate|reflexivity].
Defined.

(* ================================================================= *)
(** * Further properties of the signal fetcher *)

Section MoreDecodePaths.
Variable decode : string -> result value.
Variable DataFrame : list row -> result (list row).

(** What a retained row adds, from nothing: one sample and no line, or no
    sample and one line. *)
Lemma parse_signals_row_retained (r : row) :
  truthy (dict_get r "data") = true ->
  (exists x y z : value,
     parse_signals_row decode (no_channels, []) r = (sample x y z, [])) \/
  (exists e : exn,
     parse_signals_row decode (no_channels, []) r = (no_channels, [error_line e])).
Proof.
  intros Ht. destruct (signal_of decode (dict_get r "data")) as [v|e] eqn:Hs.
  - destruct (is_dict v) eqn:Hd.
    + destruct v; try discriminate. left. do 3 eexists.
      by rewrite (parse_signals_row_object decode no_channels [] r d Ht Hs).
    + right. destruct (parse_signals_row_not_object decode no_channels [] r v Ht Hs Hd)
        as (e & _ & Hrow). by exists e.
  - right. exists e. by rewrite (parse_signals_row_raise decode no_channels [] r e Ht Hs).
Qed.

(** The frame of a list whose retained payloads all decode to objects,
    beside the lists of [parse_signals]. *)
Lemma decode_paths_core (data : list row) :
  (forall r : row, r ∈ data -> truthy (dict_get r "data") = true ->
     exists o : gmap string value, decodes_to decode (dict_get r "data") o) ->
  exists df : list row,
    parse_signals_to_dataframe_loop decode data [] = Ok df /\
    parse_signals decode data =
      ({| xs := column "x" df; ys := column "y" df; zs := column "z" df |}, []) /\
    column "timestamp" df = (fun r : row => dict_get r "timestamp") <$> retained data /\
    Forall (fun rec : row =>
              is_Some (rec !! "x") /\ is_Some (rec !! "y") /\ is_Some (rec !! "z")) df.
Proof.
  induction data as [|r data IH]; intros Hall.
  - exists []. by split_and!.
  - destruct IH as (df & Hloop & Hps & Hts & Hkeys).
    { intros r' Hin. apply Hall. by right. }
    cbn [parse_signals_to_dataframe_loop]. rewrite parse_signals_cons, Hps.
    unfold retained. cbn [List.filter]. fold (retained data).
    destruct (truthy (dict_get r "data")) eqn:Ht.
    + destruct (Hall r) as [o Ho]; [left|done|].
      pose proof (decodes_to_signal_of decode _ _ Ho) as Hsig.
      rewrite (dataframe_row_object decode [] r o Ht Hsig).
      rewrite (parse_signals_row_object decode no_channels [] r o Ht Hsig).
      cbn. rewrite dataframe_loop_acc, Hloop.
      exists (record_of o r :: df). split; [done|].
      destruct (record_of_channels o r) as (Hx & Hy & Hz & Ht' & Hkx & Hky & Hkz).
      split_and!.
      * unfold column. cbn. by rewrite Hx, Hy, Hz.
      * unfold column in *. cbn. by rewrite Ht', Hts.
      * by constructor.
    + rewrite (dataframe_row_skip decode [] r Ht).
      rewrite (parse_signals_row_skip decode no_channels [] r Ht).
      cbn. rewrite Hloop. exists df. split; [done|]. split; [|done].
      by destruct df.
Qed.

(** A loop that returns has met objects only. *)
Lemma dataframe_loop_ok_objects (data : list row) (df : list row) :
  parse_signals_to_dataframe_loop decode data [] = Ok df ->
  forall r : row, r ∈ data -> truthy (dict_get r "data") = true ->
    exists o : gmap string value, decodes_to decode (dict_get r "data") o.
Proof.
  revert df. induction data as [|r data IH]; intros df Hloop r' Hin Ht.
  - by apply elem_of_nil in Hin.
  - cbn [parse_signals_to_dataframe_loop] in Hloop.
    destruct (parse_signals_to_dataframe_row decode [] r) as [l|e] eqn:Hrow; [|done].
    cbn in Hloop. rewrite dataframe_loop_acc in Hloop.
    destruct (parse_signals_to_dataframe_loop decode data []) as [df'|e] eqn:Hrest; [|done].
    apply elem_of_cons in Hin as [->|Hin]; [|by eapply IH].
    destruct (signal_of decode (dict_get r "data")) as [v|e] eqn:Hs.
    + destruct (is_dict v) eqn:Hd.
      * destruct v; try discriminate. exists d. by apply signal_of_decodes_to.
      * destruct (dataframe_row_not_object decode [] r v Ht Hs Hd) as (e & _ & Hr).
        congruence.
    + rewrite (dataframe_row_raise decode [] r e Ht Hs) in Hrow. done.
Qed.

(** X1.  Whenever [parse_signals_to_dataframe] returns a frame, the loop
    has built the records that the frame was made from, the payload of
    every retained row decoded to an object, and [parse_signals] prints
    nothing on the same list: its three lists are the [x], [y] and [z] of
    these records, and there is one record for each retained row, with the
    timestamp of that row ([None] when the row has none). *)
Theorem dataframe_returned_means_agreement (data df : list row) :
  parse_signals_to_dataframe decode DataFrame data = Ok df ->
  exists records : list row,
    parse_signals_to_dataframe_loop decode data [] = Ok records /\
    DataFrame records = Ok df /\
    (forall r : row, r ∈ data -> truthy (dict_get r "data") = true ->
       exists o : gmap string value, decodes_to decode (dict_get r "data") o) /\
    parse_signals decode data =
      ({| xs := column "x" records; ys := column "y" records;
          zs := column "z" records |}, []) /\
    column "timestamp" records =
      (fun r : row => dict_get r "timestamp") <$> retained data /\
    length records = length (retained data).
Proof.
  unfold parse_signals_to_dataframe.
  destruct (parse_signals_to_dataframe_loop decode data []) as [records|e] eqn:Hloop;
    [|done].
  cbn. intros Hdf. exists records.
  pose proof (dataframe_loop_ok_objects data records Hloop) as Hall.
  destruct (decode_paths_core data Hall) as (records' & Hloop' & Hps & Hts & _).
  assert (records' = records) as -> by congruence.
  split_and!; try done.
  rewrite <- (length_fmap (fun rec : row => dict_get rec "timestamp") records).
  fold (column "timestamp" records). by rewrite Hts, length_fmap.
Qed.

(** X2.  [parse_signals] accounts for every retained row: the number of
    samples and the number of lines printed add up to the number of rows
    that pass the test [if signal_json:]. *)
Theorem parse_signals_sample_or_line (data : list row) :
  length (xs (parse_signals decode data).1) + length (parse_signals decode data).2 =
    length (retained data) /\
  length (xs (parse_signals decode data).1) <= length data.
Proof.
  assert (H : length (xs (parse_signals decode data).1)
              + length (parse_signals decode data).2 = length (retained data)).
  { induction data as [|r data IH]; [done|].
    rewrite parse_signals_cons. unfold retained. cbn [List.filter]. fold (retained data).
    destruct (truthy (dict_get r "data")) eqn:Ht.
    - destruct (parse_signals_row_retained r Ht) as [(x & y & z & ->)|(e & ->)];
        cbn; rewrite ?length_app; cbn; lia.
    - rewrite (parse_signals_row_skip decode no_channels [] r Ht). cbn. exact IH. }
  split; [exact H|].
  assert (length (retained data) <= length data); [|lia].
  unfold retained. apply filter_length_le.
Qed.

(** X3.  [parse_signals] of two lists one after the other: the lists of
    the first followed by the lists of the second, and the lines of the
    first followed by the lines of the second. *)
Theorem parse_signals_concatenation (d1 d2 : list row) :
  xs (parse_signals decode (d1 ++ d2)).1 =
    xs (parse_signals decode d1).1 ++ xs (parse_signals decode d2).1 /\
  ys (parse_signals decode (d1 ++ d2)).1 =
    ys (parse_signals decode d1).1 ++ ys (parse_signals decode d2).1 /\
  zs (parse_signals decode (d1 ++ d2)).1 =
    zs (parse_signals decode d1).1 ++ zs (parse_signals decode d2).1 /\
  (parse_signals decode (d1 ++ d2)).2 =
    (parse_signals decode d1).2 ++ (parse_signals decode d2).2.
Proof. by rewrite parse_signals_app. Qed.

(** X4.  The records that the loop of [parse_signals_to_dataframe]
    builds for two lists one after the other: what the first raises when it
    raises; otherwise what the second raises when it raises; otherwise the
    records of the first followed by those of the second.  So the function
    raises on the whole list as soon as it raises on a part. *)
Theorem dataframe_records_concatenation (d1 d2 : list row) :
  parse_signals_to_dataframe_loop decode (d1 ++ d2) [] =
    match parse_signals_to_dataframe_loop decode d1 [] with
    | Raise e => Raise e
    | Ok records1 =>
        match parse_signals_to_dataframe_loop decode d2 [] with
        | Raise e => Raise e
        | Ok records2 => Ok (records1 ++ records2)
        end
    end /\
  (forall e : exn,
     parse_signals_to_dataframe_loop decode d1 [] = Raise e ->
     parse_signals_to_dataframe decode DataFrame (d1 ++ d2) = Raise e) /\
  (forall (records1 : list row) (e : exn),
     parse_signals_to_dataframe_loop decode d1 [] = Ok records1 ->
     parse_signals_to_dataframe_loop decode d2 [] = Raise e ->
     parse_signals_to_dataframe decode DataFrame (d1 ++ d2) = Raise e).
Proof.
  assert (H : parse_signals_to_dataframe_loop decode (d1 ++ d2) [] =
    match parse_signals_to_dataframe_loop decode d1 [] with
    | Raise e => Raise e
    | Ok records1 =>
        match parse_signals_to_dataframe_loop decode d2 [] with
        | Raise e => Raise e
        | Ok records2 => Ok (records1 ++ records2)
        end
    end).
  { rewrite dataframe_loop_app.
    destruct (parse_signals_to_dataframe_loop decode d1 []) as [records1|e]; [|done].
    rewrite dataframe_loop_acc.
    by destruct (parse_signals_to_dataframe_loop decode d2 []). }
  split_and!; [exact H| |].
  - intros e He. unfold parse_signals_to_dataframe. by rewrite H, He.
  - intros records1 e H1 H2. unfold parse_signals_to_dataframe. by rewrite H, H1, H2.
Qed.

Lemma get_default_not_dict (v : value) (key : string) (dflt : value) :
  is_dict v = false ->
  get_default v key dflt =
    Raise (Exn AttributeError
             ("'" ++ type_name v ++ "' object has no attribute 'get'")%string).
Proof. by destruct v. Qed.

(** X5.  A payload that is a string, not empty, and decodes to something
    that is not an object (a number, a list, a text, [true], [null]):
    [parse_signals] adds no sample for the row and prints one line, the
    [AttributeError] of [signal.get]; the rows around it are processed as
    without it.  [parse_signals_to_dataframe] raises on the same list, and
    raises this [AttributeError] when the rows before raise nothing. *)
Theorem non_object_json_logged_or_raised
    (pre post : list row) (r : row) (s : string) (v : value) :
  r !! "data" = Some (VStr s) ->
  s <> EmptyString ->
  decode s = Ok v ->
  is_dict v = false ->
  parse_signals decode (pre ++ r :: post) =
    (channels_app (parse_signals decode pre).1 (parse_signals decode post).1,
     (parse_signals decode pre).2 ++
       error_line (Exn AttributeError
                     ("'" ++ type_name v ++ "' object has no attribute 'get'")%string)
         :: (parse_signals decode post).2) /\
  raises (parse_signals_to_dataframe decode DataFrame (pre ++ r :: post)) /\
  (returns (parse_signals_to_dataframe decode DataFrame pre) ->
   parse_signals_to_dataframe decode DataFrame (pre ++ r :: post) =
     Raise (Exn AttributeError
              ("'" ++ type_name v ++ "' object has no attribute 'get'")%string)).
Proof.
  intros Hr Hs Hdec Hd.
  assert (Hpay : dict_get r "data" = VStr s) by (unfold dict_get; by rewrite Hr).
  assert (Ht : truthy (dict_get r "data") = true)
    by (rewrite Hpay; by apply truthy_str).
  assert (Hsig : signal_of decode (dict_get r "data") = Ok v) by (by rewrite Hpay).
  destruct (parse_signals_row_not_object decode no_channels [] r v Ht Hsig Hd)
    as (e & He & Hrow).
  destruct (dataframe_row_not_object decode [] r v Ht Hsig Hd) as (e' & He' & Hdf).
  rewrite (get_default_not_dict v "x" (VInt 0) Hd) in He, He'.
  injection He as <-. injection He' as <-.
  split_and!.
  - rewrite parse_signals_app, parse_signals_cons, Hrow. done.
  - unfold parse_signals_to_dataframe. rewrite dataframe_loop_app.
    destruct (parse_signals_to_dataframe_loop decode pre []) as [recs|e0]; [|done].
    cbn [parse_signals_to_dataframe_loop]. by rewrite dataframe_row_acc, Hdf.
  - unfold parse_signals_to_dataframe. rewrite dataframe_loop_app.
    destruct (parse_signals_to_dataframe_loop decode pre []) as [recs|e0]; [|done].
    intros _. cbn [parse_signals_to_dataframe_loop]. by rewrite dataframe_row_acc, Hdf.
Qed.

(** X6.  A payload that is neither a string nor a dictionary.  It is
    skipped without a word by both functions exactly when it is [None],
    [False], the integer [0], a float zero or the empty list.  Otherwise
    ([True], another number, a list with items) [json.loads] refuses it:
    [parse_signals] prints the [TypeError] and adds no sample, and
    [parse_signals_to_dataframe] raises it. *)
Theorem non_text_payload_skipped_or_type_error (r : row) (payload : value) :
  r !! "data" = Some payload ->
  is_dict payload = false ->
  (forall s : string, payload <> VStr s) ->
  (truthy payload = false <->
     payload = VNone \/ payload = VBool false \/ payload = VInt 0 \/
     (exists sg : bool, payload = VFloat (S754_zero sg)) \/ payload = VList []) /\
  (truthy payload = false ->
     (forall (c : channels) (out : list string),
        parse_signals_row decode (c, out) r = (c, out)) /\
     (forall records : list row,
        parse_signals_to_dataframe_row decode records r = Ok records)) /\
  (truthy payload = true ->
     (forall (c : channels) (out : list string),
        parse_signals_row decode (c, out) r =
          (c, out ++ [error_line
                        (Exn TypeError
                           ("the JSON object must be str, bytes or bytearray, not "
                              ++ type_name payload)%string)])) /\
     (forall records : list row,
        parse_signals_to_dataframe_row decode records r =
          Raise (Exn TypeError
                   ("the JSON object must be str, bytes or bytearray, not "
                      ++ type_name payload)%string))).
Proof.
  intros Hr Hd Hstr.
  assert (Hpay : dict_get r "data" = payload) by (unfold dict_get; by rewrite Hr).
  assert (Hsig : signal_of decode payload =
     Raise (Exn TypeError
              ("the JSON object must be str, bytes or bytearray, not "
                 ++ type_name payload)%string)).
  { unfold signal_of. rewrite Hd. destruct payload; try reflexivity.
    by destruct (Hstr s). }
  split; [|split].
  - destruct payload as [|b|n|f|s|l|d].
    + split; [intros _; by left|reflexivity].
    + destruct b; cbn; (split; [intros H; first [discriminate H | right; by left]|]);
        intros [H|[H|[H|[[sg H]|H]]]]; first [discriminate H | reflexivity].
    + cbn. destruct (Z.eqb_spec n 0) as [->|Hn]; cbn.
      * split; [intros _; right; right; by left|reflexivity].
      * split; [intros H; discriminate H|].
        intros [H|[H|[H|[[sg H]|H]]]]; try discriminate H.
        injection H as ->. by destruct Hn.
    + destruct f as [sg|sg| |sg m e]; cbn;
        (split; [intros H; first [discriminate H | right; right; right; left; by exists sg]|]);
        intros [H|[H|[H|[[sg' H]|H]]]]; first [discriminate H | reflexivity].
    + by destruct (Hstr s).
    + destruct l as [|v l]; cbn;
        (split; [intros H; first [discriminate H | do 4 right; reflexivity]|]);
        intros [H|[H|[H|[[sg H]|H]]]]; first [discriminate H | reflexivity].
    + discriminate Hd.
  - intros Hf. split.
    + intros c out. apply parse_signals_row_skip. by rewrite Hpay.
    + intros records. apply dataframe_row_skip. by rewrite Hpay.
  - intros Ht. split.
    + intros c out. apply parse_signals_row_raise; by rewrite Hpay.
    + intros records. apply dataframe_row_raise; by rewrite Hpay.
Qed.

End MoreDecodePaths.

(* ================================================================= *)
(** ** Further properties of the charts and of the script *)

Section MoreScript.
Variable execute : supabase.query -> result (list row).
Variable decode : string -> result value.
Variable DataFrame : list row -> result (list row).
Variable plt_plot : list value -> result unit.

(** The figure that [plot_signals_from_dataframe] saves for three
    columns. *)
Lemma plot_cases (df : list row) (title filename : string) (w : signal_fetcher.world) :
  (exists e : exn,
     plot_signals_from_dataframe plt_plot df title filename w = (Raise e, w)) \/
  (exists x y z : list value,
     pd.getitem df "x" = Ok x /\ pd.getitem df "y" = Ok y /\ pd.getitem df "z" = Ok z /\
     plot_signals_from_dataframe plt_plot df title filename w =
       (Ok (),
        print ("Plot saved as " ++ filename)%string
          (savefig filename
             {| plt.fig_lines := [("X"%string, x); ("Y"%string, y); ("Z"%string, z)];
                plt.fig_xlabel := "Sample"; plt.fig_ylabel := "Acceleration";
                plt.fig_title := title; plt.fig_legend := true |} w))).
Proof.
  unfold plot_signals_from_dataframe.
  destruct (pd.getitem df "x") as [x|e]; cbn; [|left; by eexists].
  destruct (plt_plot x) as [[]|e]; cbn; [|left; by eexists].
  destruct (pd.getitem df "y") as [y|e]; cbn; [|left; by eexists].
  destruct (plt_plot y) as [[]|e]; cbn; [|left; by eexists].
  destruct (pd.getitem df "z") as [z|e]; cbn; [|left; by eexists].
  destruct (plt_plot z) as [[]|e]; cbn; [|left; by eexists].
  right. exists x, y, z. by split_and!.
Qed.

(** The script once both queries have answered with rows. *)
Lemma main_with_rows (date : string) (w : signal_fetcher.world) (accel_data gyro_data : list row) :
  execute (accelerometer_query date) = Ok accel_data ->
  execute (gyroscope_query date) = Ok gyro_data ->
  accel_data <> [] -> gyro_data <> [] ->
  signal_fetcher.main execute decode DataFrame plt_plot date w =
    match parse_signals_to_dataframe decode DataFrame accel_data with
    | Raise e => (Uncaught e, w)
    | Ok accel_df =>
        match plot_signals_from_dataframe plt_plot accel_df "Accelerometer Signal"
                "accel_signal_plot.png" w with
        | (Raise e, w1) => (Uncaught e, w1)
        | (Ok _, w1) =>
            match parse_signals_to_dataframe decode DataFrame gyro_data with
            | Raise e => (Uncaught e, w1)
            | Ok gyro_df =>
                match plot_signals_from_dataframe plt_plot gyro_df "Gyroscope Signal"
                        "gyro_signal_plot.png" w1 with
                | (Raise e, w2) => (Uncaught e, w2)
                | (Ok _, w2) => (Completed, w2)
                end
            end
        end
    end.
Proof.
  intros Ha Hg Hna Hng. unfold signal_fetcher.main.
  rewrite fetch_accelerometer_data_execute, Ha, fetch_gyroscope_data_execute, Hg.
  destruct accel_data; [done|]. destruct gyro_data; [done|]. reflexivity.
Qed.


(** The script when a query raises. *)
Lemma main_fetch_raises (date : string) (w : signal_fetcher.world) (e : exn) :
  (execute (accelerometer_query date) = Raise e ->
   signal_fetcher.main execute decode DataFrame plt_plot date w = (Uncaught e, w)) /\
  (forall accel_data : list row,
     execute (accelerometer_query date) = Ok accel_data ->
     execute (gyroscope_query date) = Raise e ->
     signal_fetcher.main execute decode DataFrame plt_plot date w = (Uncaught e, w)).
Proof.
  split.
  - intros Ha. unfold signal_fetcher.main.
    by rewrite fetch_accelerometer_data_execute, Ha.
  - intros accel_data Ha Hg. unfold signal_fetcher.main.
    by rewrite fetch_accelerometer_data_execute, Ha, fetch_gyroscope_data_execute, Hg.
Qed.

(** X8.  An error of either query ends the script at once: nothing is
    printed, no chart is saved and the exit code is 1.  Both queries are
    sent before the results are looked at, so an error of the gyroscope
    query does this even when the accelerometer query has answered no
    row. *)
Theorem fetch_error_is_uncaught (date : string) (w : signal_fetcher.world) (e : exn) :
  (execute (accelerometer_query date) = Raise e ->
   signal_fetcher.main execute decode DataFrame plt_plot date w = (Uncaught e, w)) /\
  (forall accel_data : list row,
     execute (accelerometer_query date) = Ok accel_data ->
     execute (gyroscope_query date) = Raise e ->
     signal_fetcher.main execute decode DataFrame plt_plot date w = (Uncaught e, w) /\
     exit_code (signal_fetcher.main execute decode DataFrame plt_plot date w).1 = 1%Z).
Proof.
  destruct (main_fetch_raises date w e) as [H1 H2]. split.
  - exact H1.
  - intros accel_data Ha Hg. by rewrite (H2 accel_data Ha Hg).
Qed.



(** X10.  A run that ends normally has drawn both charts: both queries
    answered rows, a frame was built for each, and at the end
    [accel_signal_plot.png] holds the figure titled [Accelerometer Signal]
    with the columns [x], [y] and [z] of the accelerometer frame as its
    lines, [gyro_signal_plot.png] the figure titled [Gyroscope Signal] with
    those of the gyroscope frame, and two lines were printed, the
    accelerometer one first. *)
Theorem completed_run_has_both_charts (date : string) (w w' : signal_fetcher.world) :
  signal_fetcher.main execute decode DataFrame plt_plot date w = (Completed, w') ->
  exists (accel_data gyro_data accel_df gyro_df : list row)
         (ax ay az gx gy gz : list value),
    execute (accelerometer_query date) = Ok accel_data /\ accel_data <> [] /\
    execute (gyroscope_query date) = Ok gyro_data /\ gyro_data <> [] /\
    parse_signals_to_dataframe decode DataFrame accel_data = Ok accel_df /\
    parse_signals_to_dataframe decode DataFrame gyro_data = Ok gyro_df /\
    pd.getitem accel_df "x" = Ok ax /\ pd.getitem accel_df "y" = Ok ay /\
    pd.getitem accel_df "z" = Ok az /\
    pd.getitem gyro_df "x" = Ok gx /\ pd.getitem gyro_df "y" = Ok gy /\
    pd.getitem gyro_df "z" = Ok gz /\
    files w' =
      <["gyro_signal_plot.png"%string :=
          {| plt.fig_lines := [("X"%string, gx); ("Y"%string, gy); ("Z"%string, gz)];
             plt.fig_xlabel := "Sample"; plt.fig_ylabel := "Acceleration";
             plt.fig_title := "Gyroscope Signal"; plt.fig_legend := true |}]>
        (<["accel_signal_plot.png"%string :=
             {| plt.fig_lines := [("X"%string, ax); ("Y"%string, ay); ("Z"%string, az)];
                plt.fig_xlabel := "Sample"; plt.fig_ylabel := "Acceleration";
                plt.fig_title := "Accelerometer Signal"; plt.fig_legend := true |}]>
           (files w)) /\
    stdout w' =
      stdout w ++ ["Plot saved as accel_signal_plot.png";
                   "Plot saved as gyro_signal_plot.png"]%string.
Proof.
  intros Hmain.
  destruct (execute (accelerometer_query date)) as [accel_data|e] eqn:Ha.
  2:{ by rewrite (proj1 (main_fetch_raises date w e) Ha) in Hmain. }
  destruct (execute (gyroscope_query date)) as [gyro_data|e] eqn:Hg.
  2:{ by rewrite (proj2 (main_fetch_raises date w e) accel_data Ha Hg)
        in Hmain. }
  destruct accel_data as [|a accel_data].
  { unfold signal_fetcher.main in Hmain.
    rewrite fetch_accelerometer_data_execute, Ha, fetch_gyroscope_data_execute, Hg
      in Hmain. discriminate Hmain. }
  destruct gyro_data as [|g gyro_data].
  { unfold signal_fetcher.main in Hmain.
    rewrite fetch_accelerometer_data_execute, Ha, fetch_gyroscope_data_execute, Hg
      in Hmain. discriminate Hmain. }
  rewrite (main_with_rows date w (a :: accel_data) (g :: gyro_data) Ha Hg) in Hmain;
    [|done|done].
  destruct (parse_signals_to_dataframe decode DataFrame (a :: accel_data))
    as [adf|e] eqn:Hadf; [|discriminate Hmain].
  destruct (plot_cases adf "Accelerometer Signal" "accel_signal_plot.png" w)
    as [(e & Hp1)|(ax & ay & az & Hax & Hay & Haz & Hp1)]; rewrite Hp1 in Hmain;
    [discriminate Hmain|].
  destruct (parse_signals_to_dataframe decode DataFrame (g :: gyro_data))
    as [gdf|e] eqn:Hgdf; [|discriminate Hmain].
  match type of Hmain with context [plot_signals_from_dataframe _ _ _ _ ?w1] =>
    destruct (plot_cases gdf "Gyroscope Signal" "gyro_signal_plot.png" w1)
      as [(e & Hp2)|(gx & gy & gz & Hgx & Hgy & Hgz & Hp2)]; rewrite Hp2 in Hmain
  end; [discriminate Hmain|].
  injection Hmain as <-.
  exists (a :: accel_data), (g :: gyro_data), adf, gdf, ax, ay, az, gx, gy, gz.
  split_and!; try done. unfold print, savefig. cbn [stdout files].
  rewrite <- app_assoc. reflexivity.
Qed.

(** X11.  An exception of [parse_signals_to_dataframe] ends the script
    with the exit code 1.  On the accelerometer rows it does so before
    anything is printed or saved.  On the gyroscope rows it does so after
    the accelerometer chart has been saved: [accel_signal_plot.png] is
    written and its line printed, [gyro_signal_plot.png] is left as it
    was. *)
Theorem dataframe_error_is_uncaught
    (date : string) (w : signal_fetcher.world) (accel_data gyro_data : list row) (e : exn) :
  execute (accelerometer_query date) = Ok accel_data ->
  execute (gyroscope_query date) = Ok gyro_data ->
  accel_data <> [] -> gyro_data <> [] ->
  (parse_signals_to_dataframe decode DataFrame accel_data = Raise e ->
   signal_fetcher.main execute decode DataFrame plt_plot date w = (Uncaught e, w)) /\
  (forall (accel_df : list row) (w1 : signal_fetcher.world),
     parse_signals_to_dataframe decode DataFrame accel_data = Ok accel_df ->
     plot_signals_from_dataframe plt_plot accel_df "Accelerometer Signal"
       "accel_signal_plot.png" w = (Ok (), w1) ->
     parse_signals_to_dataframe decode DataFrame gyro_data = Raise e ->
     signal_fetcher.main execute decode DataFrame plt_plot date w = (Uncaught e, w1) /\
     is_Some (files w1 !! "accel_signal_plot.png"%string) /\
     files w1 !! "gyro_signal_plot.png"%string = files w !! "gyro_signal_plot.png"%string /\
     stdout w1 = stdout w ++ ["Plot saved as accel_signal_plot.png"%string]).
Proof.
  intros Ha Hg Hna Hng. split.
  - intros Hdf. by rewrite (main_with_rows date w accel_data gyro_data Ha Hg Hna Hng), Hdf.
  - intros accel_df w1 Hadf Hplot Hgdf. split.
    + by rewrite (main_with_rows date w accel_data gyro_data Ha Hg Hna Hng),
        Hadf, Hplot, Hgdf.
    + destruct (plot_cases accel_df "Accelerometer Signal" "accel_signal_plot.png" w)
        as [(e' & Hp)|(x & y & z & _ & _ & _ & Hp)]; rewrite Hp in Hplot;
        [discriminate Hplot|].
      injection Hplot as <-. unfold print, savefig. cbn [files stdout].
      split_and!; [rewrite lookup_insert_eq; by eexists
                  |by rewrite lookup_insert_ne|reflexivity].
Qed.

(** Rows that are all skipped give no record. *)
Lemma dataframe_loop_nothing_retained (data : list row) :
  retained data = [] -> parse_signals_to_dataframe_loop decode data [] = Ok [].
Proof.
  induction data as [|r data IH]; [done|].
  unfold retained. cbn [List.filter]. fold (retained data).
  destruct (truthy (dict_get r "data")) eqn:Ht; [done|].
  intros Hret. cbn [parse_signals_to_dataframe_loop].
  rewrite (dataframe_row_skip decode [] r Ht). cbn. by apply IH.
Qed.

(** X12.  When both queries answer rows but no accelerometer row has a
    payload that passes [if signal_json:], the frame is built from no
    record, it has no column, and the script ends with the [KeyError] of
    [df["x"]]: exit code 1, nothing printed, no chart saved.  (The
    constructor gives a frame without lines for no record.) *)
Theorem no_retained_row_is_a_key_error
    (date : string) (w : signal_fetcher.world) (accel_data gyro_data : list row) :
  DataFrame [] = Ok [] ->
  execute (accelerometer_query date) = Ok accel_data ->
  execute (gyroscope_query date) = Ok gyro_data ->
  accel_data <> [] -> gyro_data <> [] ->
  retained accel_data = [] ->
  signal_fetcher.main execute decode DataFrame plt_plot date w =
    (Uncaught (Exn KeyError "'x'"), w) /\
  exit_code (signal_fetcher.main execute decode DataFrame plt_plot date w).1 = 1%Z.
Proof.
  intros Hnil Ha Hg Hna Hng Hret.
  assert (H : signal_fetcher.main execute decode DataFrame plt_plot date w =
                (Uncaught (Exn KeyError "'x'"), w)).
  { rewrite (main_with_rows date w accel_data gyro_data Ha Hg Hna Hng).
    unfold parse_signals_to_dataframe.
    rewrite (dataframe_loop_nothing_retained accel_data Hret). cbn. by rewrite Hnil. }
  by rewrite H.
Qed.

End MoreScript.

(* ================================================================= *)
(** * Further properties of the importer *)

(** X13.  The loop of lines 35 to 37 is a replacement value by value: the
    record after it is the record before it with every NaN, infinite or
    missing value turned into [None] and the other values and all the keys
    as they were, in whatever order the items are visited; running it a
    second time changes nothing. *)
Theorem replacement_is_pointwise (event_data : gmap string pd.cell) :
  replace_nan_or_infinite event_data =
    (fun v : pd.cell => if is_nan_or_infinite v then pd.CNone else v) <$> event_data /\
  dom (replace_nan_or_infinite event_data) = dom event_data /\
  replace_nan_or_infinite (replace_nan_or_infinite event_data) =
    replace_nan_or_infinite event_data.
Proof.
  split_and!.
  - apply map_eq. intros k. by rewrite replace_nan_or_infinite_lookup, lookup_fmap.
  - apply replace_nan_or_infinite_dom.
  - apply map_eq. intros k. rewrite !replace_nan_or_infinite_lookup.
    destruct (event_data !! k) as [v|]; [|done]. cbn. f_equal.
    destruct (is_nan_or_infinite v) eqn:Hv; [done|]. by rewrite Hv.
Qed.

(** X14.  The test of line 36 is true of exactly six values: [None],
    [pd.NA], [pd.NaT], the float NaN, plus infinity and minus infinity.  It
    is false of every finite float, zero and the largest float included,
    and of every integer, text, boolean and timestamp. *)
Theorem nan_or_infinite_test (v : pd.cell) :
  (is_nan_or_infinite v = true <->
     v = pd.CNone \/ v = pd.CNA \/ v = pd.CNaT \/ v = pd.CFloat S754_nan \/
     v = pd.CFloat (S754_infinity false) \/ v = pd.CFloat (S754_infinity true)) /\
  (forall (sg : bool) (m : positive) (e : Z),
     is_nan_or_infinite (pd.CFloat (S754_finite sg m e)) = false) /\
  (forall sg : bool, is_nan_or_infinite (pd.CFloat (S754_zero sg)) = false).
Proof.
  split_and!.
  - destruct v as [| | |b|n|f|s|t]; cbn.
    + split; [intros _; by left|reflexivity].
    + split; [intros _; right; by left|reflexivity].
    + split; [intros _; right; right; by left|reflexivity].
    + split; [intros H; discriminate H|].
      intros [H|[H|[H|[H|[H|H]]]]]; discriminate H.
    + split; [intros H; discriminate H|].
      intros [H|[H|[H|[H|[H|H]]]]]; discriminate H.
    + destruct f as [sg|sg| |sg m e]; cbn.
      * split; [intros H; discriminate H|].
        intros [H|[H|[H|[H|[H|H]]]]]; discriminate H.
      * destruct sg; cbn; (split; [intros _; auto 10|reflexivity]).
      * split; [intros _; auto 10|reflexivity].
      * destruct sg; cbn; (split; [intros H; discriminate H|]);
          intros [H|[H|[H|[H|[H|H]]]]]; discriminate H.
    + split; [intros H; discriminate H|].
      intros [H|[H|[H|[H|[H|H]]]]]; discriminate H.
    + split; [intros H; discriminate H|].
      intros [H|[H|[H|[H|[H|H]]]]]; discriminate H.
  - intros sg m e. by destruct sg.
  - intros sg. by destruct sg.
Qed.

(** X15.  A line of the sheet in which none of the six columns holds a
    NaN, an infinite or a missing value is submitted as it was read: the
    loop of lines 35 to 37 leaves the record as lines 26 to 33 built it,
    each field with the value of its column. *)
Theorem clean_line_is_submitted_as_read (r event_data : gmap string pd.cell) :
  event_data_of r = Ok event_data ->
  (forall (field col : string) (v : pd.cell),
     (field, col) ∈ field_columns -> r !! col = Some v ->
     is_nan_or_infinite v = false) ->
  replace_nan_or_infinite event_data = event_data /\
  (forall field col : string, (field, col) ∈ field_columns ->
     replace_nan_or_infinite event_data !! field = r !! col) /\
  insert_of (replace_nan_or_infinite event_data) =
    {| supabase.i_table := "event_codes"; supabase.i_record := event_data |}.
Proof.
  intros Hed Hclean. destruct (event_data_of_fields r event_data Hed) as [Hdom Hfields].
  assert (Hid : replace_nan_or_infinite event_data = event_data).
  { apply map_eq. intros k. rewrite replace_nan_or_infinite_lookup.
    destruct (event_data !! k) as [v|] eqn:Hk; [|done]. cbn. f_equal.
    assert (Hin : k ∈ dom event_data) by (apply elem_of_dom; by eexists).
    rewrite Hdom in Hin.
    assert (Hcol : exists col, (k, col) ∈ field_columns).
    { unfold field_columns.
      repeat (apply elem_of_union in Hin as [Hin|Hin];
              [|apply elem_of_singleton in Hin as ->; eexists;
                apply list_elem_of_In; cbn; eauto 10]).
      apply elem_of_singleton in Hin as ->. eexists.
      apply list_elem_of_In; cbn; eauto 10. }
    destruct Hcol as [col Hcol].
    destruct (Hfields k col Hcol) as (v' & Hr & Hf).
    assert (v' = v) as -> by congruence.
    by rewrite (Hclean k col v Hcol Hr). }
  split_and!.
  - exact Hid.
  - intros field col Hin. rewrite Hid.
    destruct (Hfields field col Hin) as (v & -> & ->). done.
  - by rewrite Hid.
Qed.

Section MoreImport.
Context {Remote : Type}.
Variable execute : supabase.insert_request -> Remote -> result unit * Remote.

(** X16.  A line that lacks one of the six columns raises the [KeyError]
    of the first column that is missing, in the order in which lines 27 to
    32 read them; no insert call is sent for the line, and the loop stops
    there without touching the lines after it. *)
Theorem missing_column_is_a_key_error
    (r : gmap string pd.cell) (before after : list string) (col : string)
    (rest : list (gmap string pd.cell)) (w : world Remote) :
  ["eInd"; "eDescriptionENGL"; "eDescriptionSLO"; "eID"; "eDescriptionButt"; "Notes"]%string
    = before ++ col :: after ->
  Forall (fun c : string => is_Some (r !! c)) before ->
  r !! col = None ->
  event_data_of r = Raise (Exn KeyError ("'" ++ col ++ "'")%string) /\
  import_row execute r w = (Raise (Exn KeyError ("'" ++ col ++ "'")%string), w) /\
  import_rows execute (r :: rest) w =
    (Raise (Exn KeyError ("'" ++ col ++ "'")%string), w).
Proof.
  intros Hlist Hbefore Hcol.
  assert (Hed : event_data_of r = Raise (Exn KeyError ("'" ++ col ++ "'")%string)).
  { unfold event_data_of, pd.series_getitem.
    destruct before as [|b1 [|b2 [|b3 [|b4 [|b5 [|b6 before]]]]]];
      cbn in Hlist; simplify_eq;
      repeat match goal with
             | H : Forall _ (_ :: _) |- _ => apply Forall_cons in H as [[? ?] H]
             end;
      repeat match goal with H : r !! _ = Some _ |- _ => rewrite H; clear H end;
      cbn; try (by rewrite Hcol).
    by destruct before. }
  split_and!; [exact Hed| |];
    unfold import_rows, import_row; by rewrite Hed.
Qed.

(** X17.  However the loop ends, the insert calls that it has sent are
    those of the first [k] lines of the sheet, one for each, in the order of
    the lines and all on the table [event_codes]: it never sends a call for
    a line before the calls of the lines above it, never two for one line,
    and never more than there are lines.  When it ends without exception,
    [k] is the number of lines. *)
Theorem calls_follow_the_lines (rows : list (gmap string pd.cell)) (w : world Remote) :
  exists (k : nat) (issued : list supabase.insert_request),
    calls (import_rows execute rows w).2 = calls w ++ issued /\
    Forall2 request_of (take k rows) issued /\
    k <= length rows /\
    Forall (fun request => supabase.i_table request = "event_codes"%string) issued /\
    ((import_rows execute rows w).1 = Ok () -> k = length rows).
Proof.
  revert w. induction rows as [|r rows IH]; intros w.
  - exists 0, []. cbn. rewrite app_nil_r. by split_and!.
  - cbn [import_rows].
    destruct (event_data_of r) as [event_data|e] eqn:Hed.
    2:{ unfold import_row. rewrite Hed. exists 0, []. cbn. rewrite app_nil_r.
        split_and!; try done. lia. }
    assert (Hreq : request_of r (insert_of (replace_nan_or_infinite event_data)))
      by (by exists event_data).
    rewrite (import_row_request execute r _ w Hreq).
    destruct (execute (insert_of (replace_nan_or_infinite event_data)) (remote w))
      as [[[]|e] rm'] eqn:Hex; cbn [fst snd].
    + destruct (IH {| calls := calls w ++ [insert_of (replace_nan_or_infinite event_data)];
                      remote := rm' |}) as (k & issued & Hcalls & Hrel & Hk & Htab & Hok).
      exists (S k), (insert_of (replace_nan_or_infinite event_data) :: issued).
      split_and!.
      * rewrite Hcalls. cbn [calls]. by rewrite <- app_assoc.
      * cbn. by constructor.
      * cbn. lia.
      * by constructor.
      * intros H. cbn. f_equal. by apply Hok.
    + exists 1, [insert_of (replace_nan_or_infinite event_data)].
      cbn. split_and!; try done.
      * constructor; [done|]. rewrite take_0. constructor.
      * lia.
      * by constructor.
Qed.

End MoreImport.

(* ================================================================= *)
(** * The further properties at sample inputs *)

(** X1 at a list of two rows with objects and one without payload. *)
Lemma dataframe_returned_means_agreement_witness :
  exists records : list row,
    parse_signals_to_dataframe_loop json.decode
      [reading (VStr xyz_text); reading_without_data; reading (VDict xy_object)] []
      = Ok records /\
    parse_signals json.decode
      [reading (VStr xyz_text); reading_without_data; reading (VDict xy_object)] =
      ({| xs := column "x" records; ys := column "y" records;
          zs := column "z" records |}, []) /\
    length records = 2.
Proof.
  destruct (pd.DataFrame
              (match parse_signals_to_dataframe_loop json.decode
                       [reading (VStr xyz_text); reading_without_data;
                        reading (VDict xy_object)] [] with
               | Ok records => records
               | Raise _ => []
               end)) as [df|e] eqn:Hdf; [|vm_compute in Hdf; discriminate Hdf].
  destruct (dataframe_returned_means_agreement json.decode pd.DataFrame
              [reading (VStr xyz_text); reading_without_data; reading (VDict xy_object)] df)
    as (records & Hloop & _ & _ & Hps & _ & Hlen).
  - exact Hdf.
  - exists records. split; [exact Hloop|]. split; [exact Hps|].
    rewrite Hlen. vm_compute. reflexivity.
Defined.

(** X4 at a list whose second part holds a payload that is not JSON. *)
Lemma dataframe_records_concatenation_witness :
  parse_signals_to_dataframe json.decode pd.DataFrame
    ([reading (VStr xyz_text)] ++ [reading (VStr "not json"); reading (VStr xy_text)]) =
  Raise (Exn JSONDecodeError "Expecting value").
Proof.
  apply (proj2 (proj2 (dataframe_records_concatenation json.decode pd.DataFrame
           [reading (VStr xyz_text)] [reading (VStr "not json"); reading (VStr xy_text)]))
           [record_of xyz_object (reading (VStr xyz_text))]
           (Exn JSONDecodeError "Expecting value")).
  - vm_compute. reflexivity.
  - vm_compute. reflexivity.
Defined.

(** X5 at the payload [[1, 2]], a list. *)
Lemma non_object_json_logged_or_raised_witness :
  parse_signals json.decode
    [reading (VStr xyz_text); reading (VStr "[1, 2]"); reading (VStr xy_text)] =
    ({| xs := [VInt 1; VInt 4]; ys := [VInt 2; VInt 5]; zs := [VInt 3; VInt 0] |},
     ["Error parsing signal: 'list' object has no attribute 'get'"%string]) /\
  parse_signals_to_dataframe json.decode pd.DataFrame
    [reading (VStr xyz_text); reading (VStr "[1, 2]"); reading (VStr xy_text)] =
    Raise (Exn AttributeError "'list' object has no attribute 'get'").
Proof.
  pose proof (non_object_json_logged_or_raised json.decode pd.DataFrame
                [reading (VStr xyz_text)] [reading (VStr xy_text)]
                (reading (VStr "[1, 2]")) "[1, 2]" (VList [VInt 1; VInt 2])
                eq_refl ltac:(discriminate) ltac:(vm_compute; reflexivity) eq_refl)
    as (Hps & _ & Hdf).
  split.
  - etransitivity; [exact Hps|]. vm_compute. reflexivity.
  - apply Hdf. vm_compute. exact I.
Defined.

(** X6 at the payloads [0] and [7]. *)
Lemma non_text_payload_skipped_or_type_error_witness :
  parse_signals_row json.decode (no_channels, []) (reading (VInt 0)) = (no_channels, []) /\
  parse_signals_to_dataframe_row json.decode [] (reading (VInt 7)) =
    Raise (Exn TypeError "the JSON object must be str, bytes or bytearray, not int").
Proof.
  split.
  - apply (proj1 (proj2 (non_text_payload_skipped_or_type_error json.decode
             (reading (VInt 0)) (VInt 0) eq_refl eq_refl ltac:(discriminate))));
      reflexivity.
  - apply (proj2 (proj2 (non_text_payload_skipped_or_type_error json.decode
             (reading (VInt 7)) (VInt 7) eq_refl eq_refl ltac:(discriminate))));
      reflexivity.
Defined.


(** X8 with no accelerometer row and a gyroscope query that fails. *)
Lemma fetch_error_is_uncaught_witness :
  signal_fetcher.main execute_gyroscope_fails json.decode pd.DataFrame plot_anything
    "2024-05-01" empty_world =
    (Uncaught (Exn APIError "connection refused"), empty_world).
Proof.
  apply (proj2 (fetch_error_is_uncaught execute_gyroscope_fails json.decode pd.DataFrame
           plot_anything "2024-05-01" empty_world (Exn APIError "connection refused"))
           [] eq_refl eq_refl).
Defined.

(** X10 with one row for each sensor. *)
Lemma completed_run_has_both_charts_witness :
  stdout (signal_fetcher.main execute_both_sensors json.decode pd.DataFrame plot_anything
            "2024-05-01" empty_world).2 =
    ["Plot saved as accel_signal_plot.png"; "Plot saved as gyro_signal_plot.png"]%string.
Proof.
  destruct (completed_run_has_both_charts execute_both_sensors json.decode pd.DataFrame
              plot_anything "2024-05-01" empty_world
              (signal_fetcher.main execute_both_sensors json.decode pd.DataFrame
                 plot_anything "2024-05-01" empty_world).2)
    as (a & g & adf & gdf & ax & ay & az & gx & gy & gz & H).
  - vm_compute. reflexivity.
  - exact (proj2 (proj2 (proj2 (proj2 (proj2 (proj2 (proj2 (proj2 (proj2 (proj2
             (proj2 (proj2 (proj2 H))))))))))))).
Defined.

(** X11 with a gyroscope payload that is not JSON. *)
Lemma dataframe_error_is_uncaught_witness :
  (signal_fetcher.main execute_gyroscope_malformed json.decode pd.DataFrame plot_anything
     "2024-05-01" empty_world).1 = Uncaught (Exn JSONDecodeError "Expecting value") /\
  stdout (signal_fetcher.main execute_gyroscope_malformed json.decode pd.DataFrame
            plot_anything "2024-05-01" empty_world).2 =
    ["Plot saved as accel_signal_plot.png"%string].
Proof.
  destruct (proj2 (dataframe_error_is_uncaught execute_gyroscope_malformed json.decode
              pd.DataFrame plot_anything "2024-05-01" empty_world
              [reading (VStr xyz_text)] [reading (VStr "not json")]
              (Exn JSONDecodeError "Expecting value")
              eq_refl eq_refl ltac:(discriminate) ltac:(discriminate))
              (match parse_signals_to_dataframe json.decode pd.DataFrame
                       [reading (VStr xyz_text)] with
               | Ok df => df
               | Raise _ => []
               end)
              (plot_signals_from_dataframe plot_anything
                 (match parse_signals_to_dataframe json.decode pd.DataFrame
                          [reading (VStr xyz_text)] with
                  | Ok df => df
                  | Raise _ => []
                  end)
                 "Accelerometer Signal" "accel_signal_plot.png" empty_world).2)
    as (Hmain & _ & _ & Hout).
  - vm_compute. reflexivity.
  - vm_compute. reflexivity.
  - vm_compute. reflexivity.
  - rewrite Hmain. split; [reflexivity|]. cbn [snd]. rewrite Hout. reflexivity.
Defined.

(** X12 with an accelerometer row without payload. *)
Lemma no_retained_row_is_a_key_error_witness :
  signal_fetcher.main execute_accelerometer_without_data json.decode pd.DataFrame
    plot_anything "2024-05-01" empty_world =
    (Uncaught (Exn KeyError "'x'"), empty_world).
Proof.
  apply (proj1 (no_retained_row_is_a_key_error execute_accelerometer_without_data
           json.decode pd.DataFrame plot_anything "2024-05-01" empty_world
           [reading_without_data] [reading (VStr xyz_text)]
           eq_refl eq_refl eq_refl ltac:(discriminate) ltac:(discriminate) eq_refl)).
Defined.

(** X15 at a line without NaN. *)
Lemma clean_line_is_submitted_as_read_witness :
  replace_nan_or_infinite
    (event_data_line (pd.CInt 1) (pd.CStr "E1") (pd.CStr "first")) =
  event_data_line (pd.CInt 1) (pd.CStr "E1") (pd.CStr "first").
Proof.
  apply (proj1 (clean_line_is_submitted_as_read
           (sheet_line (pd.CInt 1) (pd.CStr "E1") (pd.CStr "first"))
           (event_data_line (pd.CInt 1) (pd.CStr "E1") (pd.CStr "first")) eq_refl
           ltac:(intros field col v Hin Hv; unfold field_columns in Hin;
                 repeat (apply elem_of_cons in Hin as [[= -> ->]|Hin];
                         [vm_compute in Hv; injection Hv as <-; reflexivity|]);
                 by apply elem_of_nil in Hin))).
Defined.

(** X16 at a line without the column [eID]. *)
Lemma missing_column_is_a_key_error_witness :
  import_rows (table_execute accept_all)
    [sheet_line_without_id; sheet_line (pd.CInt 2) (pd.CStr "E2") (pd.CStr "second")]
    empty_table = (Raise (Exn KeyError "'eID'"), empty_table).
Proof.
  apply (proj2 (proj2 (missing_column_is_a_key_error (table_execute accept_all)
           sheet_line_without_id ["eInd"; "eDescriptionENGL"; "eDescriptionSLO"]%string
           ["eDescriptionButt"; "Notes"]%string "eID"
           [sheet_line (pd.CInt 2) (pd.CStr "E2") (pd.CStr "second")] empty_table
           eq_refl
           ltac:(repeat constructor; eexists; reflexivity) eq_refl))).
Defined.

(** X17 at the sheet whose second line is refused: the calls are those
    of the first two lines. *)
Lemma calls_follow_the_lines_witness :
  exists (k : nat) (issued : list supabase.insert_request),
    calls (import_rows (table_execute e_id_not_null) sheet_nan_id empty_table).2 = issued /\
    Forall2 request_of (take k sheet_nan_id) issued /\ k <= 3.
Proof.
  destruct (calls_follow_the_lines (table_execute e_id_not_null) sheet_nan_id empty_table)
    as (k & issued & Hcalls & Hrel & Hk & _).
  exists k, issued. split; [exact Hcalls|]. split; [exact Hrel|exact Hk].
Defined.
